(** * vutils: quaternions and 4x4 transforms

    A shallow embedding of [src/Quaternion.ts] and [src/Matrix4.ts].

    A JavaScript [number] is read as a real number: [+ - * /] are the field
    operations of [R], [Math.sqrt], [Math.sin], [Math.cos] and [Math.abs] are
    [sqrt], [sin], [cos] and [Rabs].  Rounding, infinities and NaN are not
    represented: a statement below holds of the exact values, and where it
    goes through a division it shows the divisor is not zero.  The one place
    where a statement is about the doubles themselves, the norm after
    [normalize], has its own transcription over binary64 in [Float64].

    An instance method that mutates [this] and returns [void] is a function
    from the receiver before the call to the receiver after it; a method that
    can [throw] returns a [result]. *)

From Stdlib Require Import Reals Lra Psatz RNsatz List String Bool Arith.
From Corelib Require PrimFloat.
Import ListNotations.

Open Scope R_scope.

(** ** Exceptions *)

(** The two [throw Error(...)] sites of the sources, named after what they
    report, and the [TypeError] of [Array.prototype.reduce] on an empty array
    without an initial value. *)
Inductive Error : Type :=
| InvalidArgumentCount
| NonUnitAxis
| ReduceOfEmptyArray.

Inductive result (A : Type) : Type :=
| Ok (a : A)
| Throw (e : Error).

Arguments Ok {A} a.
Arguments Throw {A} e.

Definition threw {A : Type} (r : result A) : bool :=
  match r with
  | Ok _ => false
  | Throw _ => true
  end.

(** ** JavaScript built-ins *)

Module Js.

(** [args.reduce(f)] with no initial value: the first element seeds the
    accumulator and the rest are folded from left to right. *)
Definition reduce {A : Type} (f : A -> A -> A) (args : list A) : result A :=
  match args with
  | [] => Throw ReduceOfEmptyArray
  | a :: rest => Ok (fold_left f rest a)
  end.

(** [Math.atan2(y, x)]. *)
Definition atan2 (y x : R) : R :=
  if Rlt_dec 0 x then atan (y / x)
  else if Rlt_dec x 0 then
    if Rle_dec 0 y then atan (y / x) + PI else atan (y / x) - PI
  else if Rlt_dec 0 y then PI / 2
  else if Rlt_dec y 0 then - (PI / 2)
  else 0.

End Js.

(** ** Collaborators that are imported but not part of the two sources *)

Module MathUtil.

(** Modelled from the spec: [MathUtil.safeAcos], imported by
    [Quaternion.ts]; the spec describes it as clamping the arccos input to
    [[-1, 1]] before computing. *)
Definition safeAcos (x : R) : R :=
  if Rle_dec x (-1) then PI
  else if Rle_dec 1 x then 0
  else acos x.

End MathUtil.

Module Vector3.

Record t : Type := mk { x : R; y : R; z : R }.

(** Modelled from the spec: [Vector3.getNorm], imported by both sources;
    the Euclidean length of the plain 3-component vector. *)
Definition getNorm (v : t) : R :=
  sqrt (x v * x v + y v * y v + z v * z v).

End Vector3.

Module EulerAngles.

(** Modelled from the spec: the [EulerAngles] class, imported by both
    sources; three angles in radians.  The sources read the fields
    [heading], [picth] (spelled so) and [bank]. *)
Record t : Type := mk { heading : R; picth : R; bank : R }.

End EulerAngles.

(** ** Data *)

(** [class Quaternion { w; x; y; z }]. *)
Record Quaternion : Type := mkQuaternion {
  qw : R; qx : R; qy : R; qz : R
}.

(** [class Matrix4], sixteen fields in declaration order. *)
Record Matrix4 : Type := mkMatrix4 {
  m11 : R; m12 : R; m13 : R; m14 : R;
  m21 : R; m22 : R; m23 : R; m24 : R;
  m31 : R; m32 : R; m33 : R; m34 : R;
  tx : R; ty : R; tz : R; tw : R
}.

(** ** Quaternion.ts *)

Module Quat.

(** [static QuaternionIdentity = new Quaternion(1, 0, 0, 0)]. *)
Definition QuaternionIdentity : Quaternion := mkQuaternion 1 0 0 0.

Definition negate (a : Quaternion) : Quaternion :=
  mkQuaternion (- qw a) (- qx a) (- qy a) (- qz a).

Definition getNorm (a : Quaternion) : R :=
  sqrt (qw a * qw a + qx a * qx a + qy a * qy a + qz a * qz a).

Definition getConjugate (a : Quaternion) : Quaternion :=
  mkQuaternion (qw a) (- qx a) (- qy a) (- qz a).

Definition dotProduct (a b : Quaternion) : R :=
  qw a * qw b + qx a * qx b + qy a * qy b + qz a * qz b.

(** The arrow function handed to [reduce] in [crossProduct]. *)
Definition crossStep (a b : Quaternion) : Quaternion :=
  let w := qw a * qw b - qx a * qx b - qy a * qy b - qz a * qz b in
  let x := qw a * qx b + qx a * qw b + qz a * qy b - qy a * qz b in
  let y := qw a * qy b + qy a * qw b + qx a * qz b - qz a * qx b in
  let z := qw a * qz b + qz a * qw b + qy a * qx b - qx a * qy b in
  mkQuaternion w x y z.

Definition crossProduct (args : list Quaternion) : result Quaternion :=
  if (List.length args <? 2)%nat then Throw InvalidArgumentCount
  else Js.reduce crossStep args.

Definition scalarMultiply (scalar : R) (a : Quaternion) : Quaternion :=
  mkQuaternion (scalar * qw a) (scalar * qx a) (scalar * qy a) (scalar * qz a).

Definition getRotationAngle (this : Quaternion) : R :=
  2 * MathUtil.safeAcos (qw this).

Definition log (a : Quaternion) : Quaternion :=
  let theta := getRotationAngle a in
  mkQuaternion 0 (theta / 2 * qx a) (theta / 2 * qy a) (theta / 2 * qz a).

Definition pow (a : Quaternion) (exponent : R) : Quaternion :=
  if Rgt_dec (Rabs (qw a)) 0.999 then a
  else
    let alpha := MathUtil.safeAcos (qw a) in
    let newAlpha := alpha * exponent in
    let mult := sin newAlpha / sin alpha in
    mkQuaternion (cos alpha) (qx a * mult) (qy a * mult) (qz a * mult).

Definition getAngularDisplacement (a b : Quaternion) : result Quaternion :=
  crossProduct [getConjugate a; b].

(** The weights [(k0, k1)] chosen by the second [if] of [slerp]. *)
Definition slerpWeights (cosOmega t : R) : R * R :=
  if Rgt_dec cosOmega 0.9999 then (1 - t, t)
  else
    let sinOmega := sqrt (1 - cosOmega * cosOmega) in
    let omega := Js.atan2 sinOmega cosOmega in
    (sin ((1 - t) * omega) / sinOmega, sin (t * omega) / sinOmega).

Definition slerp (a b : Quaternion) (t : R) : Quaternion :=
  let cosOmega := dotProduct a b in
  let '(b, cosOmega) :=
    if Rlt_dec cosOmega 0 then (negate b, - cosOmega) else (b, cosOmega) in
  let '(k0, k1) := slerpWeights cosOmega t in
  let w := qw a * k0 + qw b * k1 in
  let x := qx a * k0 + qx b * k1 in
  let y := qy a * k0 + qy b * k1 in
  let z := qz a * k1 + qz b * k1 in
  mkQuaternion w x y z.

(** The three [if]s that pick the largest of the four candidates; the
    result is [(fourBiggestSquaredMinus1, biggestIndex)]. *)
Definition biggest (fourW fourX fourY fourZ : R) : R * nat :=
  let s0 := (fourW, 0%nat) in
  let s1 := if Rgt_dec fourX (fst s0) then (fourX, 1%nat) else s0 in
  let s2 := if Rgt_dec fourY (fst s1) then (fourY, 2%nat) else s1 in
  let s3 := if Rgt_dec fourZ (fst s2) then (fourZ, 3%nat) else s2 in
  s3.

Definition fromRotationMatrix (m : Matrix4) : Quaternion :=
  let fourWSquaredMinus1 := m11 m + m22 m + m33 m in
  let fourXSquaredMinus1 := m11 m - m22 m - m33 m in
  let fourYSquaredMinus1 := m22 m - m11 m - m33 m in
  let fourZSquaredMinus1 := m33 m - m11 m - m22 m in
  let '(fourBiggestSquaredMinus1, biggestIndex) :=
    biggest fourWSquaredMinus1 fourXSquaredMinus1
            fourYSquaredMinus1 fourZSquaredMinus1 in
  let biggestVal := sqrt (fourBiggestSquaredMinus1 + 1) * 0.5 in
  let mult := 0.25 / biggestVal in
  match biggestIndex with
  | 0%nat =>
      mkQuaternion biggestVal
        ((m23 m - m32 m) * mult)
        ((m31 m - m13 m) * mult)
        ((m12 m - m21 m) * mult)
  | 1%nat =>
      mkQuaternion biggestVal
        ((m23 m - m32 m) * mult)
        ((m12 m + m21 m) * mult)
        ((m31 m + m13 m) * mult)
  | 2%nat =>
      mkQuaternion biggestVal
        ((m31 m - m13 m) * mult)
        ((m12 m + m21 m) * mult)
        ((m23 m + m32 m) * mult)
  | 3%nat =>
      mkQuaternion biggestVal
        ((m12 m - m21 m) * mult)
        ((m31 m + m13 m) * mult)
        ((m23 m + m13 m) * mult)
  | _ => mkQuaternion 0 0 0 0
  end.

Definition setToRotateAboutX (theta : R) (this : Quaternion) : Quaternion :=
  mkQuaternion (cos (theta / 2)) (sin (theta / 2)) 0 0.

Definition setToRotateAboutY (theta : R) (this : Quaternion) : Quaternion :=
  mkQuaternion (cos (theta / 2)) 0 (sin (theta / 2)) 0.

Definition setToRotateAboutZ (theta : R) (this : Quaternion) : Quaternion :=
  mkQuaternion (cos (theta / 2)) 0 0 (sin (theta / 2)).

Definition setToRotateAboutAxis (axis : Vector3.t) (theta : R)
    (this : Quaternion) : result Quaternion :=
  if Rge_dec (Vector3.getNorm axis - 1) 0.01 then Throw NonUnitAxis
  else
    Ok (mkQuaternion (cos (theta / 2))
          (sin (theta / 2) * Vector3.x axis)
          (sin (theta / 2) * Vector3.y axis)
          (sin (theta / 2) * Vector3.z axis)).

(** [if(norm)] is taken when [norm] is not zero. *)
Definition normalize (this : Quaternion) : Quaternion :=
  let norm := getNorm this in
  if Req_dec_T norm 0 then mkQuaternion 1 0 0 0
  else mkQuaternion (qw this / norm) (qx this / norm)
                    (qy this / norm) (qz this / norm).

Definition setObjectToWorldFromEulerAngles (orientation : EulerAngles.t)
    : Quaternion :=
  let sinHOver2 := sin (EulerAngles.heading orientation / 2) in
  let cosHOver2 := cos (EulerAngles.heading orientation / 2) in
  let sinPOver2 := sin (EulerAngles.picth orientation / 2) in
  let cosPOver2 := cos (EulerAngles.picth orientation / 2) in
  let sinBOver2 := sin (EulerAngles.bank orientation / 2) in
  let cosBOver2 := cos (EulerAngles.bank orientation / 2) in
  mkQuaternion
    (cosHOver2 * cosPOver2 * cosBOver2 + sinHOver2 * sinPOver2 * sinBOver2)
    (cosHOver2 * sinPOver2 * cosBOver2 + sinHOver2 * cosPOver2 * sinBOver2)
    (- cosHOver2 * sinPOver2 * sinBOver2 + sinHOver2 * cosPOver2 * cosBOver2)
    (- sinHOver2 * sinPOver2 * cosBOver2 + cosHOver2 * cosPOver2 * sinBOver2).

Definition setWorldToObjectFromEulerAngles (orientation : EulerAngles.t)
    : Quaternion :=
  getConjugate (setObjectToWorldFromEulerAngles orientation).

(** [if(!sinThetaOver2)] is taken when [sinThetaOver2] is zero.  For
    [w * w > 1] the source has [Math.sqrt] of a negative number, NaN, which
    [!] also sends to this branch; [sqrt] is 0 there. *)
Definition getRotationAxis (this : Quaternion) : Vector3.t :=
  let sinThetaOver2 := sqrt (1 - qw this * qw this) in
  if Req_dec_T sinThetaOver2 0 then Vector3.mk 1 0 0
  else Vector3.mk (qx this / sinThetaOver2) (qy this / sinThetaOver2)
                  (qz this / sinThetaOver2).

End Quat.

(** ** Quaternion.ts over binary64

    [getNorm] and [normalize] once more, with a [number] read as the IEEE 754
    double it is: [+ * /] and [Math.sqrt] round to nearest, squares can
    overflow to [Infinity] and underflow to 0. *)

Module Float64.

Import PrimFloat.
#[local] Open Scope float_scope.
#[local] Set Warnings "-inexact-float".

Record t : Type := mk { w : float; x : float; y : float; z : float }.

(** The truthiness of a number: [0], [-0] and NaN are falsy. *)
Definition truthy (v : float) : bool :=
  negb ((v =? 0) || negb (v =? v)).

Definition getNorm (a : t) : float :=
  sqrt (w a * w a + x a * x a + y a * y a + z a * z a).

Definition normalize (this : t) : t :=
  let norm := getNorm this in
  if truthy norm then
    mk (w this / norm) (x this / norm) (y this / norm) (z this / norm)
  else mk 1 0 0 0.

(** [Math.abs(getNorm(q) - 1) <= 1e-6]. *)
Definition nearUnit (q : t) : bool :=
  abs (getNorm q - 1) <=? 1e-6.

(** The quaternion [(1e200, 0, 0, 0)], whose square of [w] is beyond the
    largest double, [(3, 0, 4, 0)], of norm 5, and the zero quaternion. *)
Definition huge : t := mk 1e200 0 0 0.

Definition threeFour : t := mk 3 0 4 0.

Definition zero : t := mk 0 0 0 0.

End Float64.

(** ** Matrix4.ts *)

Module Mat4.

(** [new Matrix4()]: every constructor parameter at its default. *)
Definition new : Matrix4 :=
  mkMatrix4 1 0 0 0
            0 1 0 0
            0 0 1 0
            0 0 0 1.

(** *** Field assignment

    [resultMat4.m11 = v] and its fifteen siblings, as updates of the record;
    [assign] runs a block of assignments from top to bottom. *)
Definition set_m11 (v : R) (m : Matrix4) : Matrix4 :=
  mkMatrix4 v (m12 m) (m13 m) (m14 m) (m21 m) (m22 m) (m23 m) (m24 m)
            (m31 m) (m32 m) (m33 m) (m34 m) (tx m) (ty m) (tz m) (tw m).
Definition set_m12 (v : R) (m : Matrix4) : Matrix4 :=
  mkMatrix4 (m11 m) v (m13 m) (m14 m) (m21 m) (m22 m) (m23 m) (m24 m)
            (m31 m) (m32 m) (m33 m) (m34 m) (tx m) (ty m) (tz m) (tw m).
Definition set_m13 (v : R) (m : Matrix4) : Matrix4 :=
  mkMatrix4 (m11 m) (m12 m) v (m14 m) (m21 m) (m22 m) (m23 m) (m24 m)
            (m31 m) (m32 m) (m33 m) (m34 m) (tx m) (ty m) (tz m) (tw m).
Definition set_m14 (v : R) (m : Matrix4) : Matrix4 :=
  mkMatrix4 (m11 m) (m12 m) (m13 m) v (m21 m) (m22 m) (m23 m) (m24 m)
            (m31 m) (m32 m) (m33 m) (m34 m) (tx m) (ty m) (tz m) (tw m).
Definition set_m21 (v : R) (m : Matrix4) : Matrix4 :=
  mkMatrix4 (m11 m) (m12 m) (m13 m) (m14 m) v (m22 m) (m23 m) (m24 m)
            (m31 m) (m32 m) (m33 m) (m34 m) (tx m) (ty m) (tz m) (tw m).
Definition set_m22 (v : R) (m : Matrix4) : Matrix4 :=
  mkMatrix4 (m11 m) (m12 m) (m13 m) (m14 m) (m21 m) v (m23 m) (m24 m)
            (m31 m) (m32 m) (m33 m) (m34 m) (tx m) (ty m) (tz m) (tw m).
Definition set_m23 (v : R) (m : Matrix4) : Matrix4 :=
  mkMatrix4 (m11 m) (m12 m) (m13 m) (m14 m) (m21 m) (m22 m) v (m24 m)
            (m31 m) (m32 m) (m33 m) (m34 m) (tx m) (ty m) (tz m) (tw m).
Definition set_m24 (v : R) (m : Matrix4) : Matrix4 :=
  mkMatrix4 (m11 m) (m12 m) (m13 m) (m14 m) (m21 m) (m22 m) (m23 m) v
            (m31 m) (m32 m) (m33 m) (m34 m) (tx m) (ty m) (tz m) (tw m).
Definition set_m31 (v : R) (m : Matrix4) : Matrix4 :=
  mkMatrix4 (m11 m) (m12 m) (m13 m) (m14 m) (m21 m) (m22 m) (m23 m) (m24 m)
            v (m32 m) (m33 m) (m34 m) (tx m) (ty m) (tz m) (tw m).
Definition set_m32 (v : R) (m : Matrix4) : Matrix4 :=
  mkMatrix4 (m11 m) (m12 m) (m13 m) (m14 m) (m21 m) (m22 m) (m23 m) (m24 m)
            (m31 m) v (m33 m) (m34 m) (tx m) (ty m) (tz m) (tw m).
Definition set_m33 (v : R) (m : Matrix4) : Matrix4 :=
  mkMatrix4 (m11 m) (m12 m) (m13 m) (m14 m) (m21 m) (m22 m) (m23 m) (m24 m)
            (m31 m) (m32 m) v (m34 m) (tx m) (ty m) (tz m) (tw m).
Definition set_m34 (v : R) (m : Matrix4) : Matrix4 :=
  mkMatrix4 (m11 m) (m12 m) (m13 m) (m14 m) (m21 m) (m22 m) (m23 m) (m24 m)
            (m31 m) (m32 m) (m33 m) v (tx m) (ty m) (tz m) (tw m).
Definition set_tx (v : R) (m : Matrix4) : Matrix4 :=
  mkMatrix4 (m11 m) (m12 m) (m13 m) (m14 m) (m21 m) (m22 m) (m23 m) (m24 m)
            (m31 m) (m32 m) (m33 m) (m34 m) v (ty m) (tz m) (tw m).
Definition set_ty (v : R) (m : Matrix4) : Matrix4 :=
  mkMatrix4 (m11 m) (m12 m) (m13 m) (m14 m) (m21 m) (m22 m) (m23 m) (m24 m)
            (m31 m) (m32 m) (m33 m) (m34 m) (tx m) v (tz m) (tw m).
Definition set_tz (v : R) (m : Matrix4) : Matrix4 :=
  mkMatrix4 (m11 m) (m12 m) (m13 m) (m14 m) (m21 m) (m22 m) (m23 m) (m24 m)
            (m31 m) (m32 m) (m33 m) (m34 m) (tx m) (ty m) v (tw m).
Definition set_tw (v : R) (m : Matrix4) : Matrix4 :=
  mkMatrix4 (m11 m) (m12 m) (m13 m) (m14 m) (m21 m) (m22 m) (m23 m) (m24 m)
            (m31 m) (m32 m) (m33 m) (m34 m) (tx m) (ty m) (tz m) v.

Definition assign (block : list (Matrix4 -> Matrix4)) (m : Matrix4) : Matrix4 :=
  fold_left (fun acc stmt => stmt acc) block m.

(** *** Static functions *)

Definition scalarMultiply (scalar : R) (m : Matrix4) : Matrix4 :=
  mkMatrix4
    (m11 m * scalar) (m12 m * scalar) (m13 m * scalar) (m14 m * scalar)
    (m21 m * scalar) (m22 m * scalar) (m23 m * scalar) (m24 m * scalar)
    (m31 m * scalar) (m32 m * scalar) (m33 m * scalar) (m34 m * scalar)
    (tx m * scalar) (ty m * scalar) (tz m * scalar) (tw m * scalar).

Definition fromWorldToObjectQuaternion (q : Quaternion) : Matrix4 :=
  let m11 := 1 - 2 * qy q * qy q - 2 * qz q * qz q in
  let m12 := 2 * qx q * qy q + 2 * qw q * qz q in
  let m13 := 2 * qx q * qz q - 2 * qw q * qy q in
  let m21 := 2 * qx q * qy q - 2 * qw q * qz q in
  let m22 := 1 - 2 * qx q * qx q - 2 * qz q * qz q in
  let m23 := 2 * qy q * qz q + 2 * qw q * qx q in
  let m31 := 2 * qx q * qz q + 2 * qw q * qy q in
  let m32 := 2 * qy q * qz q - 2 * qw q * qx q in
  let m33 := 1 - 2 * qx q * qx q - 2 * qy q * qy q in
  mkMatrix4 m11 m12 m13 0 m21 m22 m23 0 m31 m32 m33 0 0 0 0 1.

Definition fromObjectToWorldQuaternion (q : Quaternion) : Matrix4 :=
  let m11 := 1 - 2 * qy q * qy q - 2 * qz q * qz q in
  let m12 := 2 * qx q * qy q - 2 * qw q * qz q in
  let m13 := 2 * qx q * qz q + 2 * qw q * qy q in
  let m21 := 2 * qx q * qy q + 2 * qw q * qz q in
  let m22 := 1 - 2 * qx q * qx q - 2 * qz q * qz q in
  let m23 := 2 * qy q * qz q - 2 * qw q * qx q in
  let m31 := 2 * qx q * qz q - 2 * qw q * qy q in
  let m32 := 2 * qy q * qz q + 2 * qw q * qx q in
  let m33 := 1 - 2 * qx q * qx q - 2 * qy q * qy q in
  mkMatrix4 m11 m12 m13 0 m21 m22 m23 0 m31 m32 m33 0 0 0 0 1.

(** The arrow function handed to [reduce] in [matrix4Multiply]. *)
Definition multiplyStep (a b : Matrix4) : Matrix4 :=
  mkMatrix4
    (m11 a * m11 b + m12 a * m21 b + m13 a * m31 b + m14 a * tx b)
    (m11 a * m12 b + m12 a * m22 b + m13 a * m32 b + m14 a * ty b)
    (m11 a * m13 b + m12 a * m23 b + m13 a * m33 b + m14 a * tz b)
    (m11 a * m14 b + m12 a * m24 b + m13 a * m34 b + m14 a * tw b)
    (m21 a * m11 b + m22 a * m21 b + m23 a * m31 b + m24 a * tx b)
    (m21 a * m12 b + m22 a * m22 b + m23 a * m32 b + m24 a * ty b)
    (m21 a * m13 b + m22 a * m23 b + m23 a * m33 b + m24 a * tz b)
    (m21 a * m14 b + m22 a * m24 b + m23 a * m34 b + m24 a * tw b)
    (m31 a * m11 b + m32 a * m21 b + m33 a * m31 b + m34 a * tx b)
    (m31 a * m12 b + m32 a * m22 b + m33 a * m32 b + m34 a * ty b)
    (m31 a * m13 b + m32 a * m23 b + m33 a * m33 b + m34 a * tz b)
    (m31 a * m14 b + m32 a * m24 b + m33 a * m34 b + m34 a * tw b)
    (tx a * m11 b + ty a * m21 b + tz a * m31 b + tw a * tx b)
    (tx a * m12 b + ty a * m22 b + tz a * m32 b + tw a * ty b)
    (tx a * m13 b + ty a * m23 b + tz a * m33 b + tw a * tz b)
    (tx a * m14 b + ty a * m24 b + tz a * m34 b + tw a * tw b).

Definition matrix4Multiply (args : list Matrix4) : result Matrix4 :=
  if (List.length args <? 2)%nat then Throw InvalidArgumentCount
  else Js.reduce multiplyStep args.

(** *** Instance methods *)

Definition cloneFrom (target : Matrix4) (this : Matrix4) : Matrix4 :=
  assign
    [ set_m11 (m11 target); set_m12 (m12 target); set_m13 (m13 target);
      set_m14 (m14 target); set_m21 (m21 target); set_m22 (m22 target);
      set_m23 (m23 target); set_m24 (m24 target); set_m31 (m31 target);
      set_m32 (m32 target); set_m33 (m33 target); set_m34 (m34 target);
      set_tx (tx target); set_ty (ty target); set_tz (tz target);
      set_tw (tw target) ]
    this.

(** [this.cloneFrom(Matrix4.scalarMultiply(scalar, this))]. *)
Definition scalarMultiply_ (scalar : R) (this : Matrix4) : Matrix4 :=
  cloneFrom (scalarMultiply scalar this) this.

(** [this.cloneFrom(Matrix4.matrix4Multiply(this, ...args))]; an exception
    of the static function leaves the call before [cloneFrom] runs. *)
Definition matrix4Multiply_ (args : list Matrix4) (this : Matrix4)
    : result Matrix4 :=
  match matrix4Multiply (this :: args) with
  | Ok product => Ok (cloneFrom product this)
  | Throw e => Throw e
  end.

Definition identity (this : Matrix4) : Matrix4 :=
  assign
    [ set_m11 1; set_m12 0; set_m13 0; set_m14 0;
      set_m21 0; set_m22 1; set_m23 0; set_m24 0;
      set_m31 0; set_m32 0; set_m33 1; set_m34 0;
      set_tx 0; set_ty 0; set_tz 0; set_tw 1 ]
    this.

(** [resultMat4] of [setRotateFromVector3] just before it is multiplied
    into [this]. *)
Definition rotateMatrix (axis : Vector3.t) (theta : R) : Matrix4 :=
  let sin := sin theta in
  let cos := cos theta in
  let a := 1 - cos in
  let ax := a * Vector3.x axis in
  let ay := a * Vector3.y axis in
  let az := a * Vector3.z axis in
  assign
    [ set_m11 (ax * Vector3.x axis + cos);
      set_m12 (ax * Vector3.y axis + Vector3.z axis * sin);
      set_m13 (ax * Vector3.z axis - Vector3.y axis * sin);
      set_m14 0;
      set_m21 (ay * Vector3.x axis - Vector3.z axis * sin);
      set_m22 (ay * Vector3.y axis + cos);
      set_m23 (ay * Vector3.z axis + Vector3.x axis * sin);
      set_m24 0;
      set_m31 (az * Vector3.x axis + Vector3.y axis * sin);
      set_m32 (az * Vector3.y axis - Vector3.x axis * sin);
      set_m33 (az * Vector3.z axis + cos);
      set_m34 0;
      set_tx 0; set_ty 0; set_tz 0; set_tw 1 ]
    new.

(** The guard [Math.abs(Vector3.getNorm(axis) - 1) > 0.01] also opens
    [setScaleFromAxis] and [setReflection]. *)
Definition setRotateFromVector3 (axis : Vector3.t) (theta : R)
    (this : Matrix4) : result Matrix4 :=
  if Rgt_dec (Rabs (Vector3.getNorm axis - 1)) 0.01 then Throw NonUnitAxis
  else matrix4Multiply_ [rotateMatrix axis theta] this.

(** The [switch(axis)] of [setShear]: [case('x'): case('X'):] share a
    block, and a string that matches no case runs none. *)
Definition shearCase (axis : string) (s t : R) : list (Matrix4 -> Matrix4) :=
  if (axis =? "x")%string || (axis =? "X")%string then
    [ set_m11 1; set_m12 0; set_m13 0;
      set_m21 0; set_m22 1; set_m23 0;
      set_m31 s; set_m32 t; set_m33 1 ]
  else if (axis =? "y")%string || (axis =? "Y")%string then
    [ set_m11 1; set_m12 0; set_m13 0;
      set_m21 s; set_m22 1; set_m23 t;
      set_m31 0; set_m32 0; set_m33 1 ]
  else if (axis =? "z")%string || (axis =? "Z")%string then
    [ set_m11 1; set_m12 s; set_m13 t;
      set_m21 0; set_m22 1; set_m23 0;
      set_m31 0; set_m32 0; set_m33 1 ]
  else [].

(** [resultMat4] of [setShear] just before it is multiplied into [this].
    The chained assignment [resultMat4.tx = resultMat4.ty = resultMat4.tx = 0]
    stores right to left: [tx], then [ty], then [tx] again; no statement
    writes [tz]. *)
Definition shearMatrix (axis : string) (s t : R) : Matrix4 :=
  let resultMat4 := new in
  let resultMat4 := assign (shearCase axis s t) resultMat4 in
  let resultMat4 := assign [ set_tx 0; set_ty 0; set_tx 0 ] resultMat4 in
  let resultMat4 := assign [ set_m34 0; set_m24 0; set_m14 0 ] resultMat4 in
  let resultMat4 := assign [ set_tw 1 ] resultMat4 in
  resultMat4.

Definition setShear (axis : string) (s t : R) (this : Matrix4)
    : result Matrix4 :=
  matrix4Multiply_ [shearMatrix axis s t] this.

(** [resultMat4] of [setOrtho] just before it is multiplied into [this]. *)
Definition orthoMatrix (left right bottom top near far : R) : Matrix4 :=
  assign
    [ set_m11 (2 / (right - left)); set_m12 0; set_m13 0; set_m14 0;
      set_m21 0; set_m22 (2 / (top - bottom)); set_m23 0; set_m24 0;
      set_m31 0; set_m32 0; set_m33 (- 2 / (far - near)); set_m34 0;
      set_tx (- (right + left) / (right - left));
      set_ty (- (top + bottom) / (top - bottom));
      set_tz (- (far + near) / (far - near));
      set_tw 1 ]
    new.

Definition setOrtho (left right bottom top near far : R) (this : Matrix4)
    : result Matrix4 :=
  matrix4Multiply_ [orthoMatrix left right bottom top near far] this.

(** The destructuring assignment of [transpose]: the right-hand array is
    built from the old fields before any field is written. *)
Definition transpose (this : Matrix4) : Matrix4 :=
  mkMatrix4
    (m11 this) (m21 this) (m31 this) (tx this)
    (m12 this) (m22 this) (m32 this) (ty this)
    (m13 this) (m23 this) (m33 this) (tz this)
    (m14 this) (m24 this) (m34 this) (tw this).

(** The sixteen [result.* = ...] assignments of [inverse], in source order;
    [result] starts as [new Matrix4()] and every field is overwritten. *)
Definition cofactors (this : Matrix4) : Matrix4 :=
  let '(mkMatrix4 m11 m12 m13 m14 m21 m22 m23 m24
                  m31 m32 m33 m34 tx ty tz tw) := this in
  let r_m11 :=
    m22 * m33 * tw - m22 * m34 * tz - m32 * m23 * tw
    + m32 * m24 * tz + ty * m23 * m34 - ty * m24 * m33 in
  let r_m21 :=
    - m21 * m33 * tw + m21 * m34 * tz + m31 * m23 * tw
    - m31 * m24 * tz - tx * m23 * m34 + tx * m24 * m33 in
  let r_m31 :=
    m21 * m32 * tw - m21 * m34 * ty - m31 * m22 * tw
    + m31 * m24 * ty + tx * m22 * m34 - tx * m24 * m32 in
  let r_tx :=
    - m21 * m32 * tz + m21 * m33 * ty + m31 * m22 * tz
    - m31 * m23 * ty - tx * m22 * m33 + tx * m23 * m32 in
  let r_m12 :=
    - m12 * m33 * tw + m12 * m34 * tz + m32 * m13 * tw
    - m32 * m14 * tz - ty * m13 * m34 + ty * m14 * m33 in
  let r_m22 :=
    m11 * m33 * tw - m11 * m34 * tz - m31 * m13 * tw
    + m31 * m14 * tz + tx * m13 * m34 - tx * m14 * m33 in
  let r_m32 :=
    - m11 * m32 * tw + m11 * m34 * ty + m31 * m12 * tw
    - m31 * m14 * ty - tx * m12 * m34 + tx * m14 * m32 in
  let r_ty :=
    m11 * m32 * tz - m11 * m33 * ty - m31 * m12 * tz
    + m31 * m13 * ty + tx * m12 * m33 - tx * m13 * m32 in
  let r_m13 :=
    m12 * m23 * tw - m12 * m24 * tz - m22 * m13 * tw
    + m22 * m14 * tz + ty * m13 * m24 - ty * m14 * m23 in
  let r_m23 :=
    - m11 * m23 * tw + m11 * m24 * tz + m21 * m13 * tw
    - m21 * m14 * tz - tx * m13 * m24 + tx * m14 * m23 in
  let r_m33 :=
    m11 * m22 * tw - m11 * m24 * ty - m21 * m12 * tw
    + m21 * m14 * ty + tx * m12 * m24 - tx * m14 * m22 in
  let r_tz :=
    - m11 * m22 * tz + m11 * m23 * ty + m21 * m12 * tz
    - m21 * m13 * ty - tx * m12 * m23 + tx * m13 * m22 in
  let r_m14 :=
    - m12 * m23 * m34 + m12 * m24 * m33 + m22 * m13 * m34
    - m22 * m14 * m33 - m32 * m13 * m24 + m32 * m14 * m23 in
  let r_m24 :=
    m11 * m23 * m34 - m11 * m24 * m33 - m21 * m13 * m34
    + m21 * m14 * m33 + m31 * m13 * m24 - m31 * m14 * m23 in
  let r_m34 :=
    - m11 * m22 * m34 + m11 * m24 * m32 + m21 * m12 * m34
    - m21 * m14 * m32 - m31 * m12 * m24 + m31 * m14 * m22 in
  let r_tw :=
    m11 * m22 * m33 - m11 * m23 * m32 - m21 * m12 * m33
    + m21 * m13 * m32 + m31 * m12 * m23 - m31 * m13 * m22 in
  mkMatrix4 r_m11 r_m12 r_m13 r_m14 r_m21 r_m22 r_m23 r_m24
            r_m31 r_m32 r_m33 r_m34 r_tx r_ty r_tz r_tw.

Definition inverse (this : Matrix4) : Matrix4 :=
  let result := cofactors this in
  let det := m11 this * m11 result + m12 this * m21 result
             + m13 this * m31 result + m14 this * tx result in
  if Req_dec_T det 0 then cloneFrom result this
  else
    let det := 1 / det in
    let result := scalarMultiply_ det result in
    cloneFrom result this.

(** *** The remaining constructors and methods *)

Definition fromEulerAngle (orientation : EulerAngles.t) : Matrix4 :=
  let sinH := sin (EulerAngles.heading orientation) in
  let cosH := cos (EulerAngles.heading orientation) in
  let sinP := sin (EulerAngles.picth orientation) in
  let cosP := cos (EulerAngles.picth orientation) in
  let sinB := sin (EulerAngles.bank orientation) in
  let cosB := cos (EulerAngles.bank orientation) in
  let m11 := cosH * cosB + sinH * sinP * sinB in
  let m12 := - cosH * sinB + sinH * sinP * cosB in
  let m13 := sinH * cosP in
  let m21 := sinB * cosP in
  let m22 := cosB * cosP in
  let m23 := - sinP in
  let m31 := - sinH * cosB + cosH * sinP * sinB in
  let m32 := sinB * sinH + cosH * sinP * cosB in
  let m33 := cosH * cosP in
  mkMatrix4 m11 m12 m13 0 m21 m22 m23 0 m31 m32 m33 0 0 0 0 1.

(** [this.tx = this.ty = this.tz = 0]. *)
Definition clearTranslation (this : Matrix4) : Matrix4 :=
  assign [ set_tz 0; set_ty 0; set_tx 0 ] this.

(** [tMat4] of [setTranslation]. *)
Definition translationMatrix (v : Vector3.t) : Matrix4 :=
  mkMatrix4 1 0 0 0
            0 1 0 0
            0 0 1 0
            (Vector3.x v) (Vector3.y v) (Vector3.z v) 1.

Definition setTranslation (v : Vector3.t) (this : Matrix4) : result Matrix4 :=
  matrix4Multiply_ [translationMatrix v] this.

(** The twelve assignments both [set...FromRotationMatrix] methods start
    with. *)
Definition copyBlock (orientation : Matrix4) : list (Matrix4 -> Matrix4) :=
  [ set_m11 (m11 orientation); set_m12 (m12 orientation);
    set_m13 (m13 orientation); set_m14 (m14 orientation);
    set_m21 (m21 orientation); set_m22 (m22 orientation);
    set_m23 (m23 orientation); set_m24 (m24 orientation);
    set_m31 (m31 orientation); set_m32 (m32 orientation);
    set_m33 (m33 orientation); set_m34 (m34 orientation) ].

Definition setLocalToParentFromRotationMatrix (pos : Vector3.t)
    (orientation : Matrix4) (this : Matrix4) : Matrix4 :=
  let this := assign (copyBlock orientation) this in
  assign [ set_tx (Vector3.x pos); set_ty (Vector3.y pos);
           set_tz (Vector3.z pos); set_tw (tw orientation) ] this.

Definition setLocalToParentFromEulerAngle (pos : Vector3.t)
    (orientation : EulerAngles.t) (this : Matrix4) : Matrix4 :=
  let orientationMatrix := fromEulerAngle orientation in
  setLocalToParentFromRotationMatrix pos orientationMatrix this.

(** The three translation assignments read [this.m11] and the like after the
    block has been copied. *)
Definition setParentToLocalFromRotationMatrix (pos : Vector3.t)
    (orientation : Matrix4) (this : Matrix4) : Matrix4 :=
  let this := assign (copyBlock orientation) this in
  let this :=
    set_tx (- (Vector3.x pos * m11 this + Vector3.y pos * m21 this
               + Vector3.z pos * m31 this)) this in
  let this :=
    set_ty (- (Vector3.x pos * m12 this + Vector3.y pos * m22 this
               + Vector3.z pos * m32 this)) this in
  let this :=
    set_tz (- (Vector3.x pos * m13 this + Vector3.y pos * m23 this
               + Vector3.z pos * m33 this)) this in
  set_tw (tw orientation) this.

Definition setParentToLocalFromEulerAngle (pos : Vector3.t)
    (orientation : EulerAngles.t) (this : Matrix4) : Matrix4 :=
  let orientationMatrix := fromEulerAngle orientation in
  setParentToLocalFromRotationMatrix pos orientationMatrix this.

(** The [switch(axis)] of [setRotateFromXYZAxis]. *)
Definition rotateCase (axis : string) (sin cos : R)
    : list (Matrix4 -> Matrix4) :=
  if (axis =? "x")%string || (axis =? "X")%string then
    [ set_m11 1; set_m12 0; set_m13 0; set_m14 0;
      set_m21 0; set_m22 cos; set_m23 sin; set_m24 0;
      set_m31 0; set_m32 (- sin); set_m33 cos; set_m34 0 ]
  else if (axis =? "y")%string || (axis =? "Y")%string then
    [ set_m11 cos; set_m12 0; set_m13 (- sin); set_m14 0;
      set_m21 0; set_m22 1; set_m23 0; set_m24 0;
      set_m31 sin; set_m32 0; set_m33 cos; set_m34 0 ]
  else if (axis =? "z")%string || (axis =? "Z")%string then
    [ set_m11 cos; set_m12 sin; set_m13 0; set_m14 0;
      set_m21 (- sin); set_m22 cos; set_m23 0; set_m24 0;
      set_m31 0; set_m32 0; set_m33 1; set_m34 0 ]
  else [].

(** [resultMat4] of [setRotateFromXYZAxis] just before it is multiplied into
    [this]. *)
Definition rotateXYZMatrix (axis : string) (theta : R) : Matrix4 :=
  let sin := sin theta in
  let cos := cos theta in
  let resultMat4 := new in
  let resultMat4 := assign (rotateCase axis sin cos) resultMat4 in
  assign [ set_tx 0; set_ty 0; set_tz 0; set_tw 1 ] resultMat4.

Definition setRotateFromXYZAxis (axis : string) (theta : R) (this : Matrix4)
    : result Matrix4 :=
  matrix4Multiply_ [rotateXYZMatrix axis theta] this.

(** [resultMat4] of [setScale] just before it is multiplied into [this]. *)
Definition scaleMatrix (v : Vector3.t) : Matrix4 :=
  assign
    [ set_m11 (Vector3.x v); set_m12 0; set_m13 0;
      set_m21 0; set_m22 (Vector3.y v); set_m23 0;
      set_m31 0; set_m32 0; set_m33 (Vector3.z v);
      set_tx 0; set_ty 0; set_tz 0;
      set_m34 0; set_m24 0; set_m14 0;
      set_tw 1 ]
    new.

Definition setScale (v : Vector3.t) (this : Matrix4) : result Matrix4 :=
  matrix4Multiply_ [scaleMatrix v] this.

(** [resultMat4] of [setScaleFromAxis] just before it is multiplied into
    [this]; a chained assignment [a = b = e] stores [b], then [a]. *)
Definition scaleAxisMatrix (axis : Vector3.t) (k : R) : Matrix4 :=
  let a := k - 1 in
  let ax := a * Vector3.x axis in
  let ay := a * Vector3.y axis in
  let az := a * Vector3.z axis in
  assign
    [ set_m11 (ax * Vector3.x axis + 1);
      set_m22 (ay * Vector3.y axis + 1);
      set_m33 (az * Vector3.z axis + 1);
      set_m21 (ax * Vector3.y axis); set_m12 (ax * Vector3.y axis);
      set_m31 (ax * Vector3.z axis); set_m13 (ax * Vector3.z axis);
      set_m32 (ay * Vector3.z axis); set_m23 (ay * Vector3.z axis);
      set_tz 0; set_ty 0; set_tx 0;
      set_m34 0; set_m24 0; set_m14 0;
      set_tw 1 ]
    new.

Definition setScaleFromAxis (axis : Vector3.t) (k : R) (this : Matrix4)
    : result Matrix4 :=
  if Rgt_dec (Rabs (Vector3.getNorm axis - 1)) 0.01 then Throw NonUnitAxis
  else matrix4Multiply_ [scaleAxisMatrix axis k] this.

(** [resultMat4] of [setReflection] just before it is multiplied into
    [this]. *)
Definition reflectionMatrix (n : Vector3.t) : Matrix4 :=
  let ax := - 2 * Vector3.x n in
  let ay := - 2 * Vector3.y n in
  let az := - 2 * Vector3.z n in
  assign
    [ set_m11 (1 + ax * Vector3.x n);
      set_m22 (1 + ay * Vector3.y n);
      set_m33 (1 + az * Vector3.z n);
      set_m21 (ax * Vector3.y n); set_m12 (ax * Vector3.y n);
      set_m31 (ax * Vector3.z n); set_m13 (ax * Vector3.z n);
      set_m32 (ay * Vector3.z n); set_m23 (ay * Vector3.z n);
      set_tz 0; set_ty 0; set_tx 0;
      set_m34 0; set_m24 0; set_m14 0;
      set_tw 1 ]
    new.

Definition setReflection (n : Vector3.t) (this : Matrix4) : result Matrix4 :=
  if Rgt_dec (Rabs (Vector3.getNorm n - 1)) 0.01 then Throw NonUnitAxis
  else matrix4Multiply_ [reflectionMatrix n] this.



(** *** The iterator

    [values] is filled once when the iterator is made; [index] is the
    variable the closure [next] increments.  [value] is [None] for
    [undefined], what [values[index]] is past the end. *)
Record Iterator : Type := mkIterator { values : list R; index : nat }.

Record IteratorResult : Type := mkIteratorResult {
  done : bool; value : option R
}.

Definition iterator (this : Matrix4) : Iterator :=
  mkIterator
    [ m11 this; m12 this; m13 this; m14 this;
      m21 this; m22 this; m23 this; m24 this;
      m31 this; m32 this; m33 this; m34 this;
      tx this; ty this; tz this; tw this ]
    0.

Definition next (it : Iterator) : IteratorResult * Iterator :=
  (mkIteratorResult (index it =? List.length (values it))%nat
                    (nth_error (values it) (index it)),
   mkIterator (values it) (S (index it))).

(** [[...m]]: [next] is called until a result has [done] set, and the values
    before it are collected; [fuel] bounds the number of calls. *)
Fixpoint spread (fuel : nat) (it : Iterator) : option (list (option R)) :=
  match fuel with
  | O => None
  | S fuel' =>
      let '(r, it') := next it in
      if done r then Some []
      else option_map (cons (value r)) (spread fuel' it')
  end.

(** [new Matrix4(...args)]: a parameter whose argument is missing or
    [undefined] takes its default. *)
Definition construct (args : list (option R)) : Matrix4 :=
  let arg (i : nat) (default : R) : R :=
    match nth_error args i with
    | Some (Some v) => v
    | _ => default
    end in
  mkMatrix4 (arg 0%nat 1) (arg 1%nat 0) (arg 2%nat 0) (arg 3%nat 0)
            (arg 4%nat 0) (arg 5%nat 1) (arg 6%nat 0) (arg 7%nat 0)
            (arg 8%nat 0) (arg 9%nat 0) (arg 10%nat 1) (arg 11%nat 0)
            (arg 12%nat 0) (arg 13%nat 0) (arg 14%nat 0) (arg 15%nat 1).

End Mat4.

(** ** Reference definitions the statements compare the code with *)

(** The Hamilton product [p * q] of the mathematical convention,
    [(pw + px i + py j + pz k)(qw + qx i + qy j + qz k)] expanded with
    [i^2 = j^2 = k^2 = ijk = -1]. *)
Definition hamilton (p q : Quaternion) : Quaternion :=
  mkQuaternion
    (qw p * qw q - qx p * qx q - qy p * qy q - qz p * qz q)
    (qw p * qx q + qx p * qw q + qy p * qz q - qz p * qy q)
    (qw p * qy q - qx p * qz q + qy p * qw q + qz p * qx q)
    (qw p * qz q + qx p * qy q - qy p * qx q + qz p * qw q).

(** The identity matrix, written out. *)
Definition identityMatrix : Matrix4 :=
  mkMatrix4 1 0 0 0
            0 1 0 0
            0 0 1 0
            0 0 0 1.

(** The rows of the upper 3x3 block have unit length and are pairwise
    orthogonal. *)
Definition orthonormalBlock (m : Matrix4) : Prop :=
  m11 m * m11 m + m12 m * m12 m + m13 m * m13 m = 1 /\
  m21 m * m21 m + m22 m * m22 m + m23 m * m23 m = 1 /\
  m31 m * m31 m + m32 m * m32 m + m33 m * m33 m = 1 /\
  m11 m * m21 m + m12 m * m22 m + m13 m * m23 m = 0 /\
  m11 m * m31 m + m12 m * m32 m + m13 m * m33 m = 0 /\
  m21 m * m31 m + m22 m * m32 m + m23 m * m33 m = 0.

(** A pure rotation: orthonormal block, fourth column [(0,0,0,1)] and
    translation row [(0,0,0,1)]. *)
Definition pureRotation (m : Matrix4) : Prop :=
  orthonormalBlock m /\
  m14 m = 0 /\ m24 m = 0 /\ m34 m = 0 /\
  tx m = 0 /\ ty m = 0 /\ tz m = 0 /\ tw m = 1.

(** The six axis names the [switch] of [setShear] has a case for. *)
Definition shearAxes : list string := ["x"; "X"; "y"; "Y"; "z"; "Z"]%string.

(** [det] of [inverse], for a matrix whose fourth column is [(0,0,0,1)]: the
    determinant of the upper 3x3 block. *)
Definition blockDet (m : Matrix4) : R :=
  m11 m * m22 m * m33 m - m11 m * m23 m * m32 m - m21 m * m12 m * m33 m
  + m21 m * m13 m * m32 m + m31 m * m12 m * m23 m - m31 m * m13 m * m22 m.

(** The half turn about [z], [q = (0, 0, 0, 1)], has the same matrix under
    both constructors. *)
Definition halfTurnZ : Matrix4 :=
  mkMatrix4 (-1) 0 0 0
            0 (-1) 0 0
            0 0 1 0
            0 0 0 1.

(** The quarter turn about [z] built by [setRotateFromXYZAxis('z', PI / 2)]:
    [cos = 0], [sin = 1]. *)
Definition quarterTurnZ : Matrix4 :=
  mkMatrix4 0 1 0 0
            (-1) 0 0 0
            0 0 1 0
            0 0 0 1.

(** A quaternion of squared norm 1. *)
Definition unitQuaternion (q : Quaternion) : Prop :=
  qw q * qw q + qx q * qx q + qy q * qy q + qz q * qz q = 1.

(** A vector of squared length 1. *)
Definition unitVector (v : Vector3.t) : Prop :=
  Vector3.x v * Vector3.x v + Vector3.y v * Vector3.y v
  + Vector3.z v * Vector3.z v = 1.

(** A matrix whose fourth column is [(0, 0, 0, 1)]. *)
Definition affine (m : Matrix4) : Prop :=
  m14 m = 0 /\ m24 m = 0 /\ m34 m = 0 /\ tw m = 1.

(** The value [inverse] holds in [det] when it tests it against zero. *)
Definition inverseDet (this : Matrix4) : R :=
  m11 this * m11 (Mat4.cofactors this) + m12 this * m21 (Mat4.cofactors this)
  + m13 this * m31 (Mat4.cofactors this) + m14 this * tx (Mat4.cofactors this).

Definition zeroMatrix : Matrix4 :=
  mkMatrix4 0 0 0 0
            0 0 0 0
            0 0 0 0
            0 0 0 0.

(** The sixteen fields in the order the iterator lists them. *)
Definition fields (m : Matrix4) : list R :=
  [ m11 m; m12 m; m13 m; m14 m;
    m21 m; m22 m; m23 m; m24 m;
    m31 m; m32 m; m33 m; m34 m;
    tx m; ty m; tz m; tw m ].

(** Sequencing of two calls that can throw. *)
Definition andThen {A B : Type} (r : result A) (k : A -> result B) : result B :=
  match r with
  | Ok a => k a
  | Throw e => Throw e
  end.

(** Sample inputs: an invertible affine matrix, a singular one, and a unit
    quaternion with four non-zero components. *)
Definition sampleAffine : Matrix4 :=
  mkMatrix4 2 0 0 0
            0 1 0 0
            0 0 1 0
            3 4 5 1.

Definition sampleSingular : Matrix4 :=
  mkMatrix4 1 2 0 0
            2 4 0 0
            0 0 1 0
            0 0 0 1.

Definition sampleUnit : Quaternion :=
  mkQuaternion (1 / 2) (1 / 2) (1 / 2) (1 / 2).

(** The result of call number [k] of [next] (counting from 0) on an
    iterator, the calls before it having advanced the index. *)
Fixpoint nthCall (k : nat) (it : Mat4.Iterator) : Mat4.IteratorResult :=
  match k with
  | O => fst (Mat4.next it)
  | S k' => nthCall k' (snd (Mat4.next it))
  end.

(** The floating-point clause about [normalize]: a quaternion whose computed
    norm is not zero has, after the call, a norm within [1e-6] of 1. *)
Definition normalizedWithinTolerance (q : Float64.t) : Prop :=
  Float64.truthy (Float64.getNorm q) = true ->
  Float64.nearUnit (Float64.normalize q) = true.

(** ** Tactics *)

(** [field] does not read the decimal constants of the source; they are
    turned into fractions first. *)
Ltac halves :=
  replace 0.25 with (1 / 4) by lra;
  replace 0.5 with (1 / 2) by lra.

(** ** Basic facts *)

Lemma quaternion_ext (a b : Quaternion) :
  qw a = qw b -> qx a = qx b -> qy a = qy b -> qz a = qz b -> a = b.
Proof.
  destruct a, b; simpl; intros; subst; reflexivity.
Qed.

Lemma matrix_ext (a b : Matrix4) :
  m11 a = m11 b -> m12 a = m12 b -> m13 a = m13 b -> m14 a = m14 b ->
  m21 a = m21 b -> m22 a = m22 b -> m23 a = m23 b -> m24 a = m24 b ->
  m31 a = m31 b -> m32 a = m32 b -> m33 a = m33 b -> m34 a = m34 b ->
  tx a = tx b -> ty a = ty b -> tz a = tz b -> tw a = tw b ->
  a = b.
Proof.
  destruct a, b; simpl; intros; subst; reflexivity.
Qed.

Lemma cloneFrom_target (target this : Matrix4) :
  Mat4.cloneFrom target this = target.
Proof.
  destruct target, this; reflexivity.
Qed.

Lemma multiplyStep_new_l (m : Matrix4) :
  Mat4.multiplyStep Mat4.new m = m.
Proof.
  destruct m; apply matrix_ext; simpl; ring.
Qed.

Lemma matrix4Multiply__single (b this : Matrix4) :
  Mat4.matrix4Multiply_ [b] this = Ok (Mat4.multiplyStep this b).
Proof.
  unfold Mat4.matrix4Multiply_, Mat4.matrix4Multiply; simpl.
  now rewrite cloneFrom_target.
Qed.

Lemma identity_new (this : Matrix4) : Mat4.identity this = Mat4.new.
Proof.
  destruct this; reflexivity.
Qed.

(** ** Multiplication: operand order and operand count *)

(** C5: for all quaternions [a] and [b], [crossProduct(a, b)] returns the
    standard Hamilton product [b * a], component by component: the operand
    order is the reverse of the mathematical convention. *)
Theorem crossProduct_is_reversed_hamilton (a b : Quaternion) :
  Quat.crossProduct [a; b] = Ok (hamilton b a).
Proof.
  unfold Quat.crossProduct, Js.reduce, Quat.crossStep, hamilton; simpl.
  f_equal; apply quaternion_ext; simpl; ring.
Qed.

(** The product is not the one of the mathematical convention: [i * j = k]
    there, and [crossProduct(i, j)] is [-k]. *)
Lemma crossProduct_not_hamilton :
  let i := mkQuaternion 0 1 0 0 in
  let j := mkQuaternion 0 0 1 0 in
  Quat.crossProduct [i; j] <> Ok (hamilton i j).
Proof.
  unfold Quat.crossProduct, Js.reduce, Quat.crossStep, hamilton; simpl.
  intros H.
  apply (f_equal (fun r => match r with Ok q => qz q | Throw _ => 0 end)) in H.
  simpl in H; lra.
Qed.

(** C9: [Quaternion.crossProduct] and [Matrix4.matrix4Multiply] throw exactly
    when they are given fewer than two operands, the exception being the one
    of their own length check; with two or more operands they return the
    product reduced from left to right. *)
Theorem multiply_throws_iff_fewer_than_two :
  (forall qs : list Quaternion,
      threw (Quat.crossProduct qs) = (List.length qs <? 2)%nat) /\
  (forall ms : list Matrix4,
      threw (Mat4.matrix4Multiply ms) = (List.length ms <? 2)%nat) /\
  (forall (a b : Quaternion) (rest : list Quaternion),
      Quat.crossProduct (a :: b :: rest)
      = Ok (fold_left Quat.crossStep rest (Quat.crossStep a b))) /\
  (forall (a b : Matrix4) (rest : list Matrix4),
      Mat4.matrix4Multiply (a :: b :: rest)
      = Ok (fold_left Mat4.multiplyStep rest (Mat4.multiplyStep a b))).
Proof.
  repeat split.
  - intros [|a [|b rest]]; reflexivity.
  - intros [|a [|b rest]]; reflexivity.
Qed.

Lemma crossProduct_short_error (qs : list Quaternion) :
  (List.length qs < 2)%nat -> Quat.crossProduct qs = Throw InvalidArgumentCount.
Proof.
  intros H; unfold Quat.crossProduct.
  apply Nat.ltb_lt in H; now rewrite H.
Qed.

Lemma matrix4Multiply_short_error (ms : list Matrix4) :
  (List.length ms < 2)%nat -> Mat4.matrix4Multiply ms = Throw InvalidArgumentCount.
Proof.
  intros H; unfold Mat4.matrix4Multiply.
  apply Nat.ltb_lt in H; now rewrite H.
Qed.

(** ** setShear: the translation row of the elementary matrix *)

(** Whatever the axis string, the block of the [switch] writes none of the
    four translation fields, so they are decided by the constructor default
    and the three statements after the [switch]. *)
Lemma shearMatrix_translation (axis : string) (s t : R) :
  tx (Mat4.shearMatrix axis s t) = 0 /\
  ty (Mat4.shearMatrix axis s t) = 0 /\
  tz (Mat4.shearMatrix axis s t) = 0 /\
  tw (Mat4.shearMatrix axis s t) = 1.
Proof.
  unfold Mat4.shearMatrix, Mat4.shearCase.
  destruct ((axis =? "x")%string || (axis =? "X")%string);
    [ | destruct ((axis =? "y")%string || (axis =? "Y")%string);
        [ | destruct ((axis =? "z")%string || (axis =? "Z")%string) ] ];
    repeat split; reflexivity.
Qed.

(** C10: for each of the six axis names and all [s], [t], the elementary
    matrix of [setShear] has [tx = ty = tz = 0] and [tw = 1] ([tz] through
    the constructor default), and [setShear] on an identity receiver returns
    with a matrix whose translation row is [(0, 0, 0, 1)]. *)
Theorem setShear_translation_row (axis : string) (s t : R) :
  In axis shearAxes ->
  (tx (Mat4.shearMatrix axis s t) = 0 /\
   ty (Mat4.shearMatrix axis s t) = 0 /\
   tz (Mat4.shearMatrix axis s t) = 0 /\
   tw (Mat4.shearMatrix axis s t) = 1) /\
  exists m : Matrix4,
    Mat4.setShear axis s t Mat4.new = Ok m /\
    tx m = 0 /\ ty m = 0 /\ tz m = 0 /\ tw m = 1.
Proof.
  intros _.
  pose proof (shearMatrix_translation axis s t) as Hrow.
  split; [exact Hrow|].
  exists (Mat4.shearMatrix axis s t); split; [|exact Hrow].
  unfold Mat4.setShear.
  now rewrite matrix4Multiply__single, multiplyStep_new_l.
Qed.

Lemma setShear_translation_row_witness :
  In "x"%string shearAxes /\
  ((tx (Mat4.shearMatrix "x" 2 3) = 0 /\
    ty (Mat4.shearMatrix "x" 2 3) = 0 /\
    tz (Mat4.shearMatrix "x" 2 3) = 0 /\
    tw (Mat4.shearMatrix "x" 2 3) = 1) /\
   exists m : Matrix4,
     Mat4.setShear "x" 2 3 Mat4.new = Ok m /\
     tx m = 0 /\ ty m = 0 /\ tz m = 0 /\ tw m = 1).
Proof.
  assert (Hin : In "x"%string shearAxes) by (simpl; auto).
  split; [exact Hin | exact (setShear_translation_row "x" 2 3 Hin)].
Defined.

(** The shear entries themselves do land in the receiver: an [x] shear of the
    identity has [m31 = s] and [m32 = t]. *)
Lemma setShear_x_entries (s t : R) :
  Mat4.setShear "x" s t Mat4.new
  = Ok (mkMatrix4 1 0 0 0
                  0 1 0 0
                  s t 1 0
                  0 0 0 1).
Proof.
  unfold Mat4.setShear.
  rewrite matrix4Multiply__single, multiplyStep_new_l.
  reflexivity.
Qed.

(** ** setOrtho on the unit cube *)

Lemma orthoMatrix_unit_cube :
  Mat4.orthoMatrix (-1) 1 (-1) 1 (-1) 1
  = mkMatrix4 1 0 0 0
              0 1 0 0
              0 0 (-1) 0
              0 0 0 1.
Proof.
  apply matrix_ext; simpl; lra.
Qed.

(** C3, as the code has it: [setOrtho(-1, 1, -1, 1, -1, 1)] on an identity
    receiver returns with the identity in every component but [m33], which
    is [-2 / (far - near) = -1]. *)
Theorem setOrtho_unit_cube :
  Mat4.setOrtho (-1) 1 (-1) 1 (-1) 1 Mat4.new
  = Ok (mkMatrix4 1 0 0 0
                  0 1 0 0
                  0 0 (-1) 0
                  0 0 0 1).
Proof.
  unfold Mat4.setOrtho.
  now rewrite matrix4Multiply__single, multiplyStep_new_l, orthoMatrix_unit_cube.
Qed.

(** C3, as stated, fails: the receiver is not the identity afterwards. *)
Lemma setOrtho_unit_cube_not_identity :
  Mat4.setOrtho (-1) 1 (-1) 1 (-1) 1 Mat4.new <> Ok identityMatrix.
Proof.
  unfold Mat4.setOrtho.
  rewrite matrix4Multiply__single, multiplyStep_new_l, orthoMatrix_unit_cube.
  intros H.
  apply (f_equal (fun r => match r with Ok m => m33 m | Throw _ => 0 end)) in H.
  simpl in H; lra.
Qed.

(** With [near] and [far] exchanged the same call does give the identity. *)
Lemma setOrtho_flipped_cube_identity :
  Mat4.setOrtho (-1) 1 (-1) 1 1 (-1) Mat4.new = Ok identityMatrix.
Proof.
  unfold Mat4.setOrtho.
  rewrite matrix4Multiply__single, multiplyStep_new_l.
  f_equal; apply matrix_ext; simpl; lra.
Qed.

(** ** normalize *)

Lemma sumsq_nonneg (w x y z : R) : 0 <= w * w + x * x + y * y + z * z.
Proof. nra. Qed.

Lemma getNorm_sqr (q : Quaternion) :
  Quat.getNorm q * Quat.getNorm q
  = qw q * qw q + qx q * qx q + qy q * qy q + qz q * qz q.
Proof.
  unfold Quat.getNorm. apply sqrt_sqrt, sumsq_nonneg.
Qed.

Lemma getNorm_nonneg (q : Quaternion) : 0 <= Quat.getNorm q.
Proof. apply sqrt_pos. Qed.

(** The norm the method computes is zero for the zero quaternion only. *)
Lemma getNorm_zero_iff (q : Quaternion) :
  Quat.getNorm q = 0 <-> q = mkQuaternion 0 0 0 0.
Proof.
  split.
  - intros H. pose proof (getNorm_sqr q) as Hs. rewrite H in Hs.
    destruct q as [w x y z]; simpl in *.
    assert (w = 0) by nra. assert (x = 0) by nra.
    assert (y = 0) by nra. assert (z = 0) by nra.
    subst; reflexivity.
  - intros ->. unfold Quat.getNorm; simpl.
    replace (0 * 0 + 0 * 0 + 0 * 0 + 0 * 0) with 0 by ring.
    apply sqrt_0.
Qed.

Lemma normalize_zero_norm (q : Quaternion) :
  Quat.getNorm q = 0 -> Quat.normalize q = Quat.QuaternionIdentity.
Proof.
  intros Hz. unfold Quat.normalize.
  destruct (Req_dec_T (Quat.getNorm q) 0) as [_ | Hnz]; [reflexivity | easy].
Qed.

Lemma normalize_nonzero_norm (q : Quaternion) :
  Quat.getNorm q <> 0 ->
  Quat.normalize q
  = mkQuaternion (qw q / Quat.getNorm q) (qx q / Quat.getNorm q)
                 (qy q / Quat.getNorm q) (qz q / Quat.getNorm q).
Proof.
  intros Hnz. unfold Quat.normalize.
  destruct (Req_dec_T (Quat.getNorm q) 0) as [Hz | _]; [easy | reflexivity].
Qed.

Lemma getNorm_divided (q : Quaternion) (n : R) :
  n <> 0 ->
  n * n = qw q * qw q + qx q * qx q + qy q * qy q + qz q * qz q ->
  Quat.getNorm (mkQuaternion (qw q / n) (qx q / n) (qy q / n) (qz q / n)) = 1.
Proof.
  intros Hnz Hs. unfold Quat.getNorm; simpl.
  replace (qw q / n * (qw q / n) + qx q / n * (qx q / n)
           + qy q / n * (qy q / n) + qz q / n * (qz q / n))
    with ((qw q * qw q + qx q * qx q + qy q * qy q + qz q * qz q) / (n * n))
    by (field; exact Hnz).
  rewrite <- Hs.
  replace (n * n / (n * n)) with 1 by (field; exact Hnz).
  apply sqrt_1.
Qed.




(** The run in full: norm [Infinity], result the zero quaternion. *)
Lemma normalize_float_overflow_values :
  Float64.getNorm Float64.huge = PrimFloat.infinity /\
  Float64.normalize Float64.huge = Float64.zero /\
  Float64.getNorm (Float64.normalize Float64.huge) = PrimFloat.zero.
Proof.
  repeat split; vm_compute; reflexivity.
Qed.

(** Away from overflow the doubles behave: [(3, 0, 4, 0)] is normalized to
    within the tolerance. *)
Lemma normalize_float_3_0_4_0 :
  normalizedWithinTolerance Float64.threeFour /\
  Float64.nearUnit (Float64.normalize Float64.threeFour) = true.
Proof.
  split; [intros _|]; vm_compute; reflexivity.
Qed.

(** Two runs of [normalize]: the zero quaternion falls back to the identity,
    and [(3, 0, 4, 0)], of norm 5, becomes [(3/5, 0, 4/5, 0)]. *)
Lemma normalize_zero :
  Quat.normalize (mkQuaternion 0 0 0 0) = mkQuaternion 1 0 0 0.
Proof.
  apply normalize_zero_norm. now apply getNorm_zero_iff.
Qed.

Lemma getNorm_3_0_4_0 : Quat.getNorm (mkQuaternion 3 0 4 0) = 5.
Proof.
  unfold Quat.getNorm; simpl.
  replace (3 * 3 + 0 * 0 + 4 * 4 + 0 * 0) with (5 * 5) by ring.
  apply sqrt_square; lra.
Qed.

Lemma normalize_3_0_4_0 :
  Quat.normalize (mkQuaternion 3 0 4 0) = mkQuaternion (3 / 5) 0 (4 / 5) 0.
Proof.
  rewrite normalize_nonzero_norm; rewrite getNorm_3_0_4_0; [|lra].
  apply quaternion_ext; simpl; lra.
Qed.

(** ** setToRotateAboutAxis: the unit-axis guard *)

(** What the guard of [Quaternion.setToRotateAboutAxis] tests: the signed
    excess of the norm over 1, compared with [>=]. *)
Lemma setToRotateAboutAxis_throws_iff (axis : Vector3.t) (theta : R)
    (this : Quaternion) :
  Quat.setToRotateAboutAxis axis theta this = Throw NonUnitAxis
  <-> Vector3.getNorm axis - 1 >= 0.01.
Proof.
  unfold Quat.setToRotateAboutAxis.
  destruct (Rge_dec (Vector3.getNorm axis - 1) 0.01) as [H | H].
  - split; [intros _; exact H | reflexivity].
  - split; [discriminate | intros H'; contradiction].
Qed.

Lemma setToRotateAboutAxis_passes (axis : Vector3.t) (theta : R)
    (this : Quaternion) :
  Vector3.getNorm axis - 1 < 0.01 ->
  Quat.setToRotateAboutAxis axis theta this
  = Ok (mkQuaternion (cos (theta / 2))
          (sin (theta / 2) * Vector3.x axis)
          (sin (theta / 2) * Vector3.y axis)
          (sin (theta / 2) * Vector3.z axis)).
Proof.
  intros H. unfold Quat.setToRotateAboutAxis.
  destruct (Rge_dec (Vector3.getNorm axis - 1) 0.01) as [H' | _];
    [lra | reflexivity].
Qed.

Lemma getNorm_along_x (c : R) :
  0 <= c -> Vector3.getNorm (Vector3.mk c 0 0) = c.
Proof.
  intros Hc. unfold Vector3.getNorm; simpl.
  replace (c * c + 0 * 0 + 0 * 0) with (c * c) by ring.
  now apply sqrt_square.
Qed.

(** C8, the code at an axis of norm 0.5: the deviation [|0.5 - 1| = 0.5]
    exceeds the tolerance, and the call returns normally with the quaternion
    built from the short axis. *)
Theorem setToRotateAboutAxis_accepts_short_axis (theta : R) (this : Quaternion) :
  let axis := Vector3.mk 0.5 0 0 in
  Vector3.getNorm axis = 0.5 /\
  Rabs (Vector3.getNorm axis - 1) > 0.01 /\
  Quat.setToRotateAboutAxis axis theta this
  = Ok (mkQuaternion (cos (theta / 2)) (sin (theta / 2) * 0.5)
                     (sin (theta / 2) * 0) (sin (theta / 2) * 0)).
Proof.
  intros axis.
  assert (Hn : Vector3.getNorm axis = 0.5) by (apply getNorm_along_x; lra).
  split; [exact Hn | split].
  - rewrite Hn. unfold Rabs. destruct (Rcase_abs (0.5 - 1)); lra.
  - rewrite setToRotateAboutAxis_passes; [reflexivity | rewrite Hn; lra].
Qed.

(** The matrix constructor with the same contract rejects that axis. *)
Lemma setRotateFromVector3_rejects_short_axis (theta : R) (this : Matrix4) :
  Mat4.setRotateFromVector3 (Vector3.mk 0.5 0 0) theta this = Throw NonUnitAxis.
Proof.
  unfold Mat4.setRotateFromVector3.
  destruct (Rgt_dec (Rabs (Vector3.getNorm (Vector3.mk 0.5 0 0) - 1)) 0.01)
    as [_ | H]; [reflexivity|].
  exfalso; apply H.
  rewrite getNorm_along_x by lra.
  unfold Rabs. destruct (Rcase_abs (0.5 - 1)); lra.
Qed.

(** The guard compares with [>=]: an axis that is too long by 0.01 or more
    is rejected, as here at norm 1.01. *)
Lemma setToRotateAboutAxis_throws_at_boundary (theta : R) (this : Quaternion) :
  Quat.setToRotateAboutAxis (Vector3.mk 1.01 0 0) theta this = Throw NonUnitAxis.
Proof.
  apply setToRotateAboutAxis_throws_iff.
  rewrite getNorm_along_x by lra. lra.
Qed.

(** ** pow *)

Lemma safeAcos_inside (x : R) : -1 < x < 1 -> MathUtil.safeAcos x = acos x.
Proof.
  intros [Hlo Hhi]. unfold MathUtil.safeAcos.
  destruct (Rle_dec x (-1)); [lra|].
  destruct (Rle_dec 1 x); [lra | reflexivity].
Qed.

Lemma Rabs_le_inside (x c : R) : ~ Rabs x > c -> - c <= x <= c.
Proof.
  intros H. unfold Rabs in H. destruct (Rcase_abs x); lra.
Qed.

(** The near-identity guard. *)
Lemma pow_near_identity (a : Quaternion) (exponent : R) :
  Rabs (qw a) > 0.999 -> Quat.pow a exponent = a.
Proof.
  intros H. unfold Quat.pow.
  destruct (Rgt_dec (Rabs (qw a)) 0.999); [reflexivity | contradiction].
Qed.

(** Past the guard, the imaginary part is scaled by
    [sin(newAlpha) / sin(alpha)] and the real part is [cos(alpha)], which is
    [a.w] again: the exponent does not reach [w]. *)
Lemma pow_general (a : Quaternion) (exponent : R) :
  ~ Rabs (qw a) > 0.999 ->
  let alpha := acos (qw a) in
  let newAlpha := alpha * exponent in
  Quat.pow a exponent
  = mkQuaternion (qw a)
                 (qx a * (sin newAlpha / sin alpha))
                 (qy a * (sin newAlpha / sin alpha))
                 (qz a * (sin newAlpha / sin alpha)).
Proof.
  intros H alpha newAlpha. unfold Quat.pow.
  destruct (Rgt_dec (Rabs (qw a)) 0.999) as [H' | _]; [contradiction|].
  apply Rabs_le_inside in H.
  rewrite safeAcos_inside by lra.
  rewrite cos_acos by lra.
  reflexivity.
Qed.

(** The divisor [sin(alpha)] of [pow] is not zero past the guard. *)
Lemma pow_divisor_nonzero (a : Quaternion) :
  ~ Rabs (qw a) > 0.999 -> sin (MathUtil.safeAcos (qw a)) <> 0.
Proof.
  intros H. apply Rabs_le_inside in H.
  rewrite safeAcos_inside by lra.
  rewrite sin_acos by lra.
  assert (0 < 1 - (qw a)²) by (unfold Rsqr; nra).
  pose proof (sqrt_lt_R0 _ H0). lra.
Qed.

(** C4, the code at [a = (0, 1, 0, 0)] and exponent 0: [alpha = PI / 2],
    [newAlpha = 0], so the result should have [w = cos 0 = 1]; the code
    returns [w = cos(alpha) = 0], the zero quaternion. *)
Theorem pow_w_is_cos_alpha :
  let a := mkQuaternion 0 1 0 0 in
  let alpha := MathUtil.safeAcos (qw a) in
  let newAlpha := alpha * 0 in
  ~ Rabs (qw a) > 0.999 /\
  cos newAlpha = 1 /\
  Quat.pow a 0 = mkQuaternion 0 0 0 0.
Proof.
  simpl.
  assert (Hg : ~ Rabs 0 > 0.999) by (rewrite Rabs_R0; lra).
  split; [exact Hg | split].
  - rewrite Rmult_0_r. apply cos_0.
  - rewrite (pow_general (mkQuaternion 0 1 0 0) 0 Hg); simpl.
    rewrite Rmult_0_r, sin_0.
    apply quaternion_ext; simpl; unfold Rdiv; ring.
Qed.

(** The same slip seen through the rotation angle: [getRotationAngle] reads
    [w] only, so [pow] never changes it, whatever the exponent. *)
Lemma pow_keeps_rotation_angle (a : Quaternion) (exponent : R) :
  Quat.getRotationAngle (Quat.pow a exponent) = Quat.getRotationAngle a.
Proof.
  unfold Quat.getRotationAngle.
  destruct (Rgt_dec (Rabs (qw a)) 0.999) as [H | H].
  - now rewrite pow_near_identity.
  - now rewrite (pow_general a exponent H).
Qed.

(** ** slerp *)

(** With both arguments the same quaternion of squared norm above 0.9999 (a
    unit quaternion has 1), the linear weights [(1 - t, t)] are used: [w],
    [x] and [y] come back unchanged and [z] comes back as [2 t z]. *)
Lemma slerp_same (a : Quaternion) (t : R) :
  Quat.dotProduct a a > 0.9999 ->
  Quat.slerp a a t = mkQuaternion (qw a) (qx a) (qy a) (2 * t * qz a).
Proof.
  intros H. unfold Quat.slerp.
  destruct (Rlt_dec (Quat.dotProduct a a) 0) as [Hneg | _]; [lra|].
  unfold Quat.slerpWeights.
  destruct (Rgt_dec (Quat.dotProduct a a) 0.9999) as [_ | Hn]; [|contradiction].
  apply quaternion_ext; simpl; ring.
Qed.

(** C1, the code at the unit quaternion [a = (0, 0, 0, 1)] and [t = 0]: the
    result is the zero quaternion, its [z] is 0 and not [a.z = 1]. *)
Theorem slerp_same_loses_z :
  let a := mkQuaternion 0 0 0 1 in
  Quat.getNorm a = 1 /\
  Quat.slerp a a 0 = mkQuaternion 0 0 0 0 /\
  qz (Quat.slerp a a 0) <> qz a.
Proof.
  simpl.
  assert (Hs : Quat.slerp (mkQuaternion 0 0 0 1) (mkQuaternion 0 0 0 1) 0
               = mkQuaternion 0 0 0 0).
  { rewrite slerp_same by (unfold Quat.dotProduct; simpl; lra).
    apply quaternion_ext; simpl; ring. }
  split; [|split].
  - unfold Quat.getNorm; simpl.
    replace (0 * 0 + 0 * 0 + 0 * 0 + 1 * 1) with 1 by ring.
    apply sqrt_1.
  - exact Hs.
  - rewrite Hs; simpl; lra.
Qed.

(** ** fromRotationMatrix *)

Lemma biggest_first (fourW fourX fourY fourZ : R) :
  fourX <= fourW -> fourY <= fourW -> fourZ <= fourW ->
  Quat.biggest fourW fourX fourY fourZ = (fourW, 0%nat).
Proof.
  intros HX HY HZ. unfold Quat.biggest; simpl.
  destruct (Rgt_dec fourX fourW); [lra|]; simpl.
  destruct (Rgt_dec fourY fourW); [lra|]; simpl.
  destruct (Rgt_dec fourZ fourW); [lra | reflexivity].
Qed.

Lemma biggest_last (fourW fourX fourY fourZ : R) :
  fourZ > fourW -> fourZ > fourX -> fourZ > fourY ->
  Quat.biggest fourW fourX fourY fourZ = (fourZ, 3%nat).
Proof.
  intros HW HX HY. unfold Quat.biggest; simpl.
  destruct (Rgt_dec fourX fourW); simpl;
    destruct (Rgt_dec fourY _); simpl;
    destruct (Rgt_dec fourZ _); try reflexivity; lra.
Qed.

Lemma fromObjectToWorldQuaternion_half_turn :
  Mat4.fromObjectToWorldQuaternion (mkQuaternion 0 0 0 1) = halfTurnZ.
Proof.
  apply matrix_ext; simpl; ring.
Qed.

Lemma fromWorldToObjectQuaternion_half_turn :
  Mat4.fromWorldToObjectQuaternion (mkQuaternion 0 0 0 1) = halfTurnZ.
Proof.
  apply matrix_ext; simpl; ring.
Qed.

Lemma fromRotationMatrix_half_turn :
  Quat.fromRotationMatrix halfTurnZ = mkQuaternion 1 0 0 0.
Proof.
  unfold Quat.fromRotationMatrix, halfTurnZ; simpl.
  rewrite biggest_last by lra.
  replace (1 - -1 - -1 + 1) with (2 * 2) by ring.
  rewrite sqrt_square by lra.
  apply quaternion_ext; simpl; lra.
Qed.

(** C2, the code at the unit quaternion [q = (0, 0, 0, 1)]: its matrix has
    the [z] diagonal term largest, branch 3 is taken, and the quaternion
    extracted is the identity [(1, 0, 0, 0)], neither [q] nor [-q]. *)
Theorem fromRotationMatrix_branch3_not_inverse :
  let q := mkQuaternion 0 0 0 1 in
  let m := Mat4.fromObjectToWorldQuaternion q in
  Quat.getNorm q = 1 /\
  m = Mat4.fromWorldToObjectQuaternion q /\
  snd (Quat.biggest (m11 m + m22 m + m33 m) (m11 m - m22 m - m33 m)
                    (m22 m - m11 m - m33 m) (m33 m - m11 m - m22 m)) = 3%nat /\
  Quat.fromRotationMatrix m = mkQuaternion 1 0 0 0 /\
  Quat.fromRotationMatrix m <> q /\
  Quat.fromRotationMatrix m <> Quat.negate q.
Proof.
  intros q m. subst q m.
  rewrite fromObjectToWorldQuaternion_half_turn,
          fromWorldToObjectQuaternion_half_turn,
          fromRotationMatrix_half_turn.
  repeat split.
  - unfold Quat.getNorm; simpl.
    replace (0 * 0 + 0 * 0 + 0 * 0 + 1 * 1) with 1 by ring.
    apply sqrt_1.
  - unfold halfTurnZ; simpl. now rewrite biggest_last by lra.
  - intros H. apply (f_equal qw) in H. simpl in H. lra.
  - intros H. apply (f_equal qw) in H. simpl in H. lra.
Qed.

(** Branch 3 in general, on the matrix of [fromWorldToObjectQuaternion] for a
    unit quaternion whose [z] is positive and strictly the largest component
    in absolute value: [z] comes back in the [w] slot, [w] in the [x] slot,
    [x] in the [y] slot, and the [z] slot mixes all four components. *)
Lemma fromRotationMatrix_branch3_shape (q : Quaternion) :
  qw q * qw q + qx q * qx q + qy q * qy q + qz q * qz q = 1 ->
  0 < qz q ->
  qw q * qw q < qz q * qz q ->
  qx q * qx q < qz q * qz q ->
  qy q * qy q < qz q * qz q ->
  Quat.fromRotationMatrix (Mat4.fromWorldToObjectQuaternion q)
  = mkQuaternion (qz q) (qw q) (qx q)
      ((qy q * qz q + qw q * qx q + qx q * qz q - qw q * qy q) / (2 * qz q)).
Proof.
  destruct q as [w x y z]; simpl. intros Hu Hpos Hw Hx Hy.
  unfold Quat.fromRotationMatrix, Mat4.fromWorldToObjectQuaternion; simpl.
  rewrite biggest_last by nra.
  replace (1 - 2 * x * x - 2 * y * y - (1 - 2 * y * y - 2 * z * z)
           - (1 - 2 * x * x - 2 * z * z) + 1)
    with ((2 * z) * (2 * z)) by nra.
  rewrite sqrt_square by lra.
  apply quaternion_ext; simpl; try lra; halves; field; lra.
Qed.

(** Branch 0 does invert [fromWorldToObjectQuaternion]: for a unit quaternion
    with [w > 0] whose [w] is the largest component in absolute value, the
    round trip gives the quaternion back. *)
Lemma fromRotationMatrix_branch0_inverse (q : Quaternion) :
  qw q * qw q + qx q * qx q + qy q * qy q + qz q * qz q = 1 ->
  0 < qw q ->
  qx q * qx q <= qw q * qw q ->
  qy q * qy q <= qw q * qw q ->
  qz q * qz q <= qw q * qw q ->
  Quat.fromRotationMatrix (Mat4.fromWorldToObjectQuaternion q) = q.
Proof.
  destruct q as [w x y z]; simpl. intros Hu Hw Hx Hy Hz.
  unfold Quat.fromRotationMatrix, Mat4.fromWorldToObjectQuaternion; simpl.
  rewrite biggest_first by nra.
  replace (1 - 2 * y * y - 2 * z * z + (1 - 2 * x * x - 2 * z * z)
           + (1 - 2 * x * x - 2 * y * y) + 1)
    with ((2 * w) * (2 * w)) by nra.
  rewrite sqrt_square by lra.
  apply quaternion_ext; simpl; try lra; halves; field; lra.
Qed.

(** The same branch applied to the matrix of [fromObjectToWorldQuaternion]
    gives the conjugate. *)
Lemma fromRotationMatrix_branch0_conjugate (q : Quaternion) :
  qw q * qw q + qx q * qx q + qy q * qy q + qz q * qz q = 1 ->
  0 < qw q ->
  qx q * qx q <= qw q * qw q ->
  qy q * qy q <= qw q * qw q ->
  qz q * qz q <= qw q * qw q ->
  Quat.fromRotationMatrix (Mat4.fromObjectToWorldQuaternion q)
  = Quat.getConjugate q.
Proof.
  destruct q as [w x y z]; simpl. intros Hu Hw Hx Hy Hz.
  unfold Quat.fromRotationMatrix, Mat4.fromObjectToWorldQuaternion; simpl.
  rewrite biggest_first by nra.
  replace (1 - 2 * y * y - 2 * z * z + (1 - 2 * x * x - 2 * z * z)
           + (1 - 2 * x * x - 2 * y * y) + 1)
    with ((2 * w) * (2 * w)) by nra.
  rewrite sqrt_square by lra.
  apply quaternion_ext; simpl; try lra; halves; field; lra.
Qed.

(** ** inverse and transpose *)

(** An orthonormal block has determinant 1 or -1; either way it is not
    zero, and [inverse] takes the branch that scales. *)
Lemma orthonormal_blockDet_sqr (m : Matrix4) :
  orthonormalBlock m -> blockDet m * blockDet m = 1.
Proof.
  destruct m as [a11 a12 a13 a14 a21 a22 a23 a24 a31 a32 a33 a34 x y z w].
  unfold orthonormalBlock, blockDet; simpl.
  intros (H1 & H2 & H3 & H4 & H5 & H6).
  nsatz.
Qed.

Lemma orthonormal_blockDet_nonzero (m : Matrix4) :
  orthonormalBlock m -> blockDet m <> 0.
Proof.
  intros H Hz. apply orthonormal_blockDet_sqr in H.
  rewrite Hz in H. lra.
Qed.

Lemma scaled_eq (c d e : R) : d <> 0 -> c = e * d -> c * (1 / d) = e.
Proof.
  intros Hd ->. field. exact Hd.
Qed.

(** What [inverse] leaves in the receiver when the determinant it computes
    is not zero. *)
Lemma inverse_scaled (this : Matrix4) :
  let result := Mat4.cofactors this in
  let det := m11 this * m11 result + m12 this * m21 result
             + m13 this * m31 result + m14 this * tx result in
  det <> 0 ->
  Mat4.inverse this = Mat4.scalarMultiply (1 / det) result.
Proof.
  intros result det Hdet. unfold Mat4.inverse.
  fold result. fold det.
  destruct (Req_dec_T det 0) as [Hz | _]; [contradiction|].
  unfold Mat4.scalarMultiply_. now rewrite !cloneFrom_target.
Qed.

(** C6: for a pure rotation matrix (orthonormal upper 3x3 block, fourth
    column and translation row [(0, 0, 0, 1)]), [inverse()] and
    [transpose()] leave the same matrix in the receiver (numbers read as
    reals, so the components are equal, not only close). *)
Theorem inverse_rotation_is_transpose (m : Matrix4) :
  pureRotation m -> Mat4.inverse m = Mat4.transpose m.
Proof.
  intros (Ho & H14 & H24 & H34 & Hx & Hy & Hz & Hw).
  pose proof (orthonormal_blockDet_nonzero m Ho) as Hdet.
  pose proof (orthonormal_blockDet_sqr m Ho) as Hsq.
  destruct m as [a11 a12 a13 a14 a21 a22 a23 a24 a31 a32 a33 a34 x y z w].
  unfold orthonormalBlock, blockDet in *; simpl in *.
  destruct Ho as (H1 & H2 & H3 & H4 & H5 & H6).
  subst a14 a24 a34 x y z w.
  rewrite inverse_scaled; simpl.
  - apply matrix_ext; simpl;
      (apply scaled_eq;
       [ intros Hz; apply Hdet; rewrite <- Hz; ring | nsatz ]).
  - intros Hz. apply Hdet. rewrite <- Hz. ring.
Qed.

Lemma quarterTurnZ_pureRotation : pureRotation quarterTurnZ.
Proof.
  unfold pureRotation, orthonormalBlock, quarterTurnZ; simpl.
  repeat split; lra.
Qed.

Lemma inverse_rotation_is_transpose_witness :
  pureRotation quarterTurnZ /\
  Mat4.inverse quarterTurnZ = Mat4.transpose quarterTurnZ.
Proof.
  split.
  - exact quarterTurnZ_pureRotation.
  - exact (inverse_rotation_is_transpose quarterTurnZ quarterTurnZ_pureRotation).
Defined.

(** Without orthonormality the two differ: a uniform scale by 2 is inverted
    to a scale by 1/2 and transposed to itself. *)
Lemma inverse_scale_not_transpose :
  let m := mkMatrix4 2 0 0 0
                     0 2 0 0
                     0 0 2 0
                     0 0 0 1 in
  Mat4.inverse m <> Mat4.transpose m.
Proof.
  intros m H. subst m.
  assert (Hi : m11 (Mat4.inverse (mkMatrix4 2 0 0 0 0 2 0 0 0 0 2 0 0 0 0 1))
               = 1 / 2).
  { rewrite inverse_scaled; [|simpl; lra]. simpl. field. }
  rewrite H in Hi. simpl in Hi. lra.
Qed.

(** [inverse] on the identity, and [M * Identity = M]. *)
Lemma inverse_identity : Mat4.inverse Mat4.new = Mat4.new.
Proof.
  rewrite inverse_scaled; [|simpl; lra].
  apply matrix_ext; simpl; field.
Qed.

Lemma multiplyStep_new_r (m : Matrix4) :
  Mat4.multiplyStep m Mat4.new = m.
Proof.
  destruct m; apply matrix_ext; simpl; ring.
Qed.

(** * Further properties of the two files *)

(** ** Quaternion algebra *)

Lemma sumsq_product (a b : Quaternion) :
  let p := Quat.crossStep a b in
  qw p * qw p + qx p * qx p + qy p * qy p + qz p * qz p
  = (qw a * qw a + qx a * qx a + qy a * qy a + qz a * qz a)
    * (qw b * qw b + qx b * qx b + qy b * qy b + qz b * qz b).
Proof.
  destruct a, b; simpl; ring.
Qed.

Lemma crossStep_assoc (a b c : Quaternion) :
  Quat.crossStep (Quat.crossStep a b) c = Quat.crossStep a (Quat.crossStep b c).
Proof.
  destruct a, b, c; apply quaternion_ext; simpl; ring.
Qed.

(** The reduction of [crossProduct] over three operands, which groups to the
    left, returns what grouping to the right would: the product is
    associative. *)
Theorem crossProduct_associative (a b c : Quaternion) :
  Quat.crossProduct [a; b; c] = Ok (Quat.crossStep a (Quat.crossStep b c)) /\
  Quat.crossProduct [a; b; c]
  = andThen (Quat.crossProduct [b; c]) (fun bc => Quat.crossProduct [a; bc]).
Proof.
  unfold Quat.crossProduct, Js.reduce; simpl.
  now rewrite crossStep_assoc.
Qed.

(** The norm of a product is the product of the norms; in particular a
    product of unit quaternions is a unit quaternion. *)
Theorem crossProduct_norm (a b : Quaternion) :
  exists p : Quaternion,
    Quat.crossProduct [a; b] = Ok p /\
    Quat.getNorm p = Quat.getNorm a * Quat.getNorm b.
Proof.
  exists (Quat.crossStep a b); split; [reflexivity|].
  unfold Quat.getNorm at 1.
  rewrite (sumsq_product a b).
  rewrite sqrt_mult by apply sumsq_nonneg.
  reflexivity.
Qed.

(** [QuaternionIdentity] is a unit of [crossProduct] on both sides. *)
Theorem crossProduct_identity (a : Quaternion) :
  Quat.crossProduct [Quat.QuaternionIdentity; a] = Ok a /\
  Quat.crossProduct [a; Quat.QuaternionIdentity] = Ok a.
Proof.
  destruct a; split; unfold Quat.crossProduct, Js.reduce; simpl;
    f_equal; apply quaternion_ext; simpl; ring.
Qed.

(** Conjugation and negation undo themselves, and the conjugate of a product
    is the product of the conjugates in the opposite order. *)
Theorem getConjugate_involutive_antimorphism (a b : Quaternion) :
  Quat.getConjugate (Quat.getConjugate a) = a /\
  Quat.negate (Quat.negate a) = a /\
  andThen (Quat.crossProduct [a; b]) (fun p => Ok (Quat.getConjugate p))
  = Quat.crossProduct [Quat.getConjugate b; Quat.getConjugate a].
Proof.
  destruct a, b; repeat split; unfold Quat.crossProduct, Js.reduce; simpl;
    try f_equal; apply quaternion_ext; simpl; ring.
Qed.

(** For a unit quaternion [a], the conjugate is the inverse, and the angular
    displacement from [a] to [b], applied after [a], gives [b]. *)
Theorem getAngularDisplacement_reaches (a b : Quaternion) :
  unitQuaternion a ->
  Quat.crossProduct [a; Quat.getConjugate a] = Ok Quat.QuaternionIdentity /\
  Quat.getAngularDisplacement a a = Ok Quat.QuaternionIdentity /\
  andThen (Quat.getAngularDisplacement a b)
          (fun d => Quat.crossProduct [a; d]) = Ok b.
Proof.
  destruct a as [w x y z], b as [w' x' y' z'].
  unfold unitQuaternion; simpl; intros Hu.
  unfold Quat.getAngularDisplacement, Quat.crossProduct, Js.reduce; simpl.
  repeat split; f_equal; apply quaternion_ext; simpl; nsatz.
Qed.

Lemma getAngularDisplacement_reaches_witness :
  unitQuaternion (mkQuaternion 0 1 0 0) /\
  (Quat.crossProduct [mkQuaternion 0 1 0 0;
                      Quat.getConjugate (mkQuaternion 0 1 0 0)]
   = Ok Quat.QuaternionIdentity /\
   Quat.getAngularDisplacement (mkQuaternion 0 1 0 0) (mkQuaternion 0 1 0 0)
   = Ok Quat.QuaternionIdentity /\
   andThen (Quat.getAngularDisplacement (mkQuaternion 0 1 0 0)
                                        (mkQuaternion 1 2 3 4))
           (fun d => Quat.crossProduct [mkQuaternion 0 1 0 0; d])
   = Ok (mkQuaternion 1 2 3 4)).
Proof.
  assert (Hu : unitQuaternion (mkQuaternion 0 1 0 0))
    by (unfold unitQuaternion; simpl; lra).
  split; [exact Hu|].
  exact (getAngularDisplacement_reaches
           (mkQuaternion 0 1 0 0) (mkQuaternion 1 2 3 4) Hu).
Defined.

(** [normalize] is idempotent: a second call changes nothing, whatever the
    first one started from (the zero quaternion included). *)
Theorem normalize_idempotent (q : Quaternion) :
  Quat.normalize (Quat.normalize q) = Quat.normalize q.
Proof.
  assert (H1 : Quat.getNorm (Quat.normalize q) = 1).
  { destruct (Req_dec_T (Quat.getNorm q) 0) as [Hz | Hnz].
    - rewrite (normalize_zero_norm q Hz).
      unfold Quat.getNorm, Quat.QuaternionIdentity; simpl.
      replace (1 * 1 + 0 * 0 + 0 * 0 + 0 * 0) with 1 by ring.
      apply sqrt_1.
    - rewrite (normalize_nonzero_norm q Hnz).
      apply getNorm_divided; [exact Hnz | apply getNorm_sqr]. }
  rewrite (normalize_nonzero_norm (Quat.normalize q)) by (rewrite H1; lra).
  rewrite H1.
  destruct (Quat.normalize q); apply quaternion_ext; simpl; lra.
Qed.

(** The shortest-arc step of [slerp]: a target and its negation give the
    same interpolation, as long as the two quaternions are not orthogonal. *)
Theorem slerp_negated_target (a b : Quaternion) (t : R) :
  Quat.dotProduct a b <> 0 ->
  Quat.slerp a (Quat.negate b) t = Quat.slerp a b t.
Proof.
  intros Hd.
  assert (Hn : Quat.dotProduct a (Quat.negate b) = - Quat.dotProduct a b)
    by (destruct a, b; unfold Quat.dotProduct; simpl; ring).
  assert (Hnn : Quat.negate (Quat.negate b) = b)
    by (destruct b; apply quaternion_ext; simpl; ring).
  unfold Quat.slerp. rewrite Hn.
  destruct (Rlt_dec (- Quat.dotProduct a b) 0) as [H1 | H1];
    destruct (Rlt_dec (Quat.dotProduct a b) 0) as [H2 | H2]; try lra.
  - rewrite Hnn, Ropp_involutive. reflexivity.
  - reflexivity.
Qed.

Lemma slerp_negated_target_witness :
  Quat.dotProduct (mkQuaternion 1 0 0 0) (mkQuaternion (-1) 0 0 0) <> 0 /\
  Quat.slerp (mkQuaternion 1 0 0 0) (Quat.negate (mkQuaternion (-1) 0 0 0)) 0.5
  = Quat.slerp (mkQuaternion 1 0 0 0) (mkQuaternion (-1) 0 0 0) 0.5.
Proof.
  assert (Hd : Quat.dotProduct (mkQuaternion 1 0 0 0) (mkQuaternion (-1) 0 0 0)
               <> 0) by (unfold Quat.dotProduct; simpl; lra).
  split; [exact Hd|].
  exact (slerp_negated_target _ _ 0.5 Hd).
Defined.

(** [pow] with exponent 1 returns its argument, on either side of the
    near-identity guard. *)
Theorem pow_one (a : Quaternion) : Quat.pow a 1 = a.
Proof.
  destruct (Rgt_dec (Rabs (qw a)) 0.999) as [H | H].
  - now apply pow_near_identity.
  - rewrite (pow_general a 1 H).
    pose proof (pow_divisor_nonzero a H) as Hs.
    rewrite safeAcos_inside in Hs by (apply Rabs_le_inside in H; lra).
    rewrite Rmult_1_r.
    destruct a as [w x y z]; apply quaternion_ext; simpl in *; trivial;
      field; exact Hs.
Qed.

(** ** Rotations about an axis *)

Lemma getNorm_unitVector (v : Vector3.t) :
  unitVector v -> Vector3.getNorm v = 1.
Proof.
  unfold unitVector, Vector3.getNorm. intros ->. apply sqrt_1.
Qed.

Lemma unit_axis_passes (v : Vector3.t) :
  unitVector v -> ~ Rabs (Vector3.getNorm v - 1) > 0.01.
Proof.
  intros H. rewrite (getNorm_unitVector v H).
  replace (1 - 1) with 0 by ring. rewrite Rabs_R0. lra.
Qed.

Lemma sin_cos_sqr (t : R) : sin t * sin t + cos t * cos t = 1.
Proof.
  pose proof (sin2_cos2 t) as H. unfold Rsqr in H. exact H.
Qed.

(** The three coordinate-axis constructors build what the general one builds
    for the matching basis vector, and the result is a unit quaternion. *)
Theorem setToRotateAboutXYZ_as_axis (theta : R) (this : Quaternion) :
  Quat.setToRotateAboutAxis (Vector3.mk 1 0 0) theta this
  = Ok (Quat.setToRotateAboutX theta this) /\
  Quat.setToRotateAboutAxis (Vector3.mk 0 1 0) theta this
  = Ok (Quat.setToRotateAboutY theta this) /\
  Quat.setToRotateAboutAxis (Vector3.mk 0 0 1) theta this
  = Ok (Quat.setToRotateAboutZ theta this) /\
  unitQuaternion (Quat.setToRotateAboutX theta this) /\
  unitQuaternion (Quat.setToRotateAboutY theta this) /\
  unitQuaternion (Quat.setToRotateAboutZ theta this).
Proof.
  pose proof (sin_cos_sqr (theta / 2)) as Hsc.
  repeat split;
    try (rewrite setToRotateAboutAxis_passes;
         [ f_equal; apply quaternion_ext; simpl; ring
         | rewrite getNorm_unitVector by (unfold unitVector; simpl; ring); lra ]);
    unfold unitQuaternion; simpl; lra.
Qed.

(** Axis and angle survive the trip through a quaternion: for a unit axis
    and an angle strictly between 0 and [2 PI], [setToRotateAboutAxis]
    returns a unit quaternion whose [getRotationAxis] is the axis and whose
    [getRotationAngle] is the angle. *)
Theorem axis_angle_round_trip (axis : Vector3.t) (theta : R)
    (this : Quaternion) :
  unitVector axis ->
  0 < theta < 2 * PI ->
  exists q : Quaternion,
    Quat.setToRotateAboutAxis axis theta this = Ok q /\
    unitQuaternion q /\
    Quat.getRotationAxis q = axis /\
    Quat.getRotationAngle q = theta.
Proof.
  intros Hu [Hlo Hhi].
  pose proof (sin_cos_sqr (theta / 2)) as Hsc.
  assert (Hs : 0 < sin (theta / 2)) by (apply sin_gt_0; lra).
  set (s := sin (theta / 2)) in *. set (c := cos (theta / 2)) in *.
  exists (mkQuaternion c (s * Vector3.x axis) (s * Vector3.y axis)
                       (s * Vector3.z axis)).
  destruct axis as [nx ny nz]; unfold unitVector in Hu; simpl in *.
  split; [|split; [|split]].
  - rewrite setToRotateAboutAxis_passes; [reflexivity|].
    rewrite getNorm_unitVector by exact Hu. lra.
  - unfold unitQuaternion; simpl. nsatz.
  - unfold Quat.getRotationAxis; simpl.
    replace (1 - c * c) with (s * s) by lra.
    rewrite sqrt_square by lra.
    destruct (Req_dec_T s 0) as [Hz | Hnz]; [lra|].
    f_equal; field; exact Hnz.
  - unfold Quat.getRotationAngle; simpl.
    rewrite safeAcos_inside by nra.
    subst c. rewrite acos_cos by lra. lra.
Qed.

Lemma axis_angle_round_trip_witness :
  unitVector (Vector3.mk 1 0 0) /\
  0 < PI < 2 * PI /\
  exists q : Quaternion,
    Quat.setToRotateAboutAxis (Vector3.mk 1 0 0) PI (mkQuaternion 0 0 0 0)
    = Ok q /\
    unitQuaternion q /\
    Quat.getRotationAxis q = Vector3.mk 1 0 0 /\
    Quat.getRotationAngle q = PI.
Proof.
  assert (Hu : unitVector (Vector3.mk 1 0 0))
    by (unfold unitVector; simpl; lra).
  assert (Hr : 0 < PI < 2 * PI) by (pose proof PI_RGT_0; lra).
  split; [exact Hu | split; [exact Hr|]].
  exact (axis_angle_round_trip (Vector3.mk 1 0 0) PI (mkQuaternion 0 0 0 0)
           Hu Hr).
Defined.

(** With no rotation to speak of ([w * w >= 1], the identity and its
    negation included) [getRotationAxis] falls back to the [x] axis. *)
Theorem getRotationAxis_fallback (q : Quaternion) :
  1 <= qw q * qw q -> Quat.getRotationAxis q = Vector3.mk 1 0 0.
Proof.
  intros H. unfold Quat.getRotationAxis.
  assert (Hz : sqrt (1 - qw q * qw q) = 0).
  { destruct (Req_dec_T (qw q * qw q) 1) as [-> | Hne].
    - replace (1 - 1) with 0 by ring. apply sqrt_0.
    - apply sqrt_neg_0. lra. }
  rewrite Hz.
  destruct (Req_dec_T 0 0) as [_ | Hn]; [reflexivity | lra].
Qed.

Lemma getRotationAxis_fallback_witness :
  1 <= qw Quat.QuaternionIdentity * qw Quat.QuaternionIdentity /\
  Quat.getRotationAxis Quat.QuaternionIdentity = Vector3.mk 1 0 0.
Proof.
  assert (H : 1 <= qw Quat.QuaternionIdentity * qw Quat.QuaternionIdentity)
    by (simpl; lra).
  split; [exact H | exact (getRotationAxis_fallback _ H)].
Defined.

(** ** Matrix algebra *)

Lemma multiplyStep_assoc (a b c : Matrix4) :
  Mat4.multiplyStep (Mat4.multiplyStep a b) c
  = Mat4.multiplyStep a (Mat4.multiplyStep b c).
Proof.
  destruct a, b, c; apply matrix_ext; simpl; ring.
Qed.

(** The reduction of [matrix4Multiply] over three operands, which groups to
    the left, returns what grouping to the right would. *)
Theorem matrix4Multiply_associative (a b c : Matrix4) :
  Mat4.matrix4Multiply [a; b; c]
  = Ok (Mat4.multiplyStep a (Mat4.multiplyStep b c)) /\
  Mat4.matrix4Multiply [a; b; c]
  = andThen (Mat4.matrix4Multiply [b; c])
            (fun bc => Mat4.matrix4Multiply [a; bc]).
Proof.
  unfold Mat4.matrix4Multiply, Js.reduce; simpl.
  now rewrite multiplyStep_assoc.
Qed.

(** The identity matrix is a unit of [matrix4Multiply] on both sides. *)
Theorem matrix4Multiply_identity (m : Matrix4) :
  Mat4.matrix4Multiply [m; Mat4.new] = Ok m /\
  Mat4.matrix4Multiply [Mat4.new; m] = Ok m.
Proof.
  unfold Mat4.matrix4Multiply, Js.reduce; simpl.
  now rewrite multiplyStep_new_r, multiplyStep_new_l.
Qed.

(** The instance method with no argument throws, the receiver being the only
    operand; with arguments it returns the receiver multiplied on the right
    by each of them in turn. *)
Theorem matrix4Multiply__arguments (this : Matrix4) (b : Matrix4)
    (rest : list Matrix4) :
  Mat4.matrix4Multiply_ [] this = Throw InvalidArgumentCount /\
  Mat4.matrix4Multiply_ (b :: rest) this
  = Ok (fold_left Mat4.multiplyStep (b :: rest) this).
Proof.
  split; [reflexivity|].
  unfold Mat4.matrix4Multiply_, Mat4.matrix4Multiply, Js.reduce; simpl.
  now rewrite cloneFrom_target.
Qed.

(** [transpose] undoes itself and reverses products. *)
Theorem transpose_involutive_antimorphism (a b : Matrix4) :
  Mat4.transpose (Mat4.transpose a) = a /\
  Mat4.transpose (Mat4.multiplyStep a b)
  = Mat4.multiplyStep (Mat4.transpose b) (Mat4.transpose a).
Proof.
  destruct a, b; split; apply matrix_ext; simpl; ring.
Qed.

Lemma inverseDet_scaled (m : Matrix4) :
  inverseDet m <> 0 ->
  Mat4.inverse m = Mat4.scalarMultiply (1 / inverseDet m) (Mat4.cofactors m).
Proof.
  intros H. now apply inverse_scaled.
Qed.

Lemma inverseDet_singular (m : Matrix4) :
  inverseDet m = 0 -> Mat4.inverse m = Mat4.cofactors m.
Proof.
  intros H. unfold Mat4.inverse. fold (inverseDet m).
  destruct (Req_dec_T (inverseDet m) 0) as [_ | Hn]; [|contradiction].
  apply cloneFrom_target.
Qed.

Lemma cofactors_right (m : Matrix4) :
  Mat4.multiplyStep m (Mat4.cofactors m)
  = Mat4.scalarMultiply (inverseDet m) identityMatrix.
Proof.
  destruct m; apply matrix_ext; unfold inverseDet; simpl; ring.
Qed.

Lemma cofactors_left (m : Matrix4) :
  Mat4.multiplyStep (Mat4.cofactors m) m
  = Mat4.scalarMultiply (inverseDet m) identityMatrix.
Proof.
  destruct m; apply matrix_ext; unfold inverseDet; simpl; ring.
Qed.

(** Whenever the determinant [inverse] computes is not zero, the matrix it
    leaves in the receiver is the inverse on both sides, for every 4x4
    matrix. *)
Theorem inverse_is_inverse (m : Matrix4) :
  inverseDet m <> 0 ->
  Mat4.matrix4Multiply [m; Mat4.inverse m] = Ok identityMatrix /\
  Mat4.matrix4Multiply [Mat4.inverse m; m] = Ok identityMatrix.
Proof.
  intros Hd.
  pose proof (cofactors_right m) as Hr. pose proof (cofactors_left m) as Hl.
  rewrite (inverseDet_scaled m Hd).
  set (d := inverseDet m) in *. set (c := Mat4.cofactors m) in *.
  unfold Mat4.matrix4Multiply, Js.reduce; simpl.
  split; f_equal.
  - apply (f_equal (Mat4.scalarMultiply (1 / d))) in Hr.
    replace (Mat4.multiplyStep m (Mat4.scalarMultiply (1 / d) c))
      with (Mat4.scalarMultiply (1 / d) (Mat4.multiplyStep m c))
      by (destruct m, c; apply matrix_ext; simpl; ring).
    rewrite Hr. apply matrix_ext; simpl; field; exact Hd.
  - apply (f_equal (Mat4.scalarMultiply (1 / d))) in Hl.
    replace (Mat4.multiplyStep (Mat4.scalarMultiply (1 / d) c) m)
      with (Mat4.scalarMultiply (1 / d) (Mat4.multiplyStep c m))
      by (destruct m, c; apply matrix_ext; simpl; ring).
    rewrite Hl. apply matrix_ext; simpl; field; exact Hd.
Qed.

Lemma inverse_is_inverse_witness :
  inverseDet sampleAffine <> 0 /\
  Mat4.matrix4Multiply [sampleAffine; Mat4.inverse sampleAffine]
  = Ok identityMatrix /\
  Mat4.matrix4Multiply [Mat4.inverse sampleAffine; sampleAffine]
  = Ok identityMatrix.
Proof.
  assert (Hd : inverseDet sampleAffine <> 0)
    by (unfold inverseDet, sampleAffine; simpl; lra).
  split; [exact Hd | exact (inverse_is_inverse sampleAffine Hd)].
Defined.

(** When that determinant is zero, [inverse] leaves the unscaled cofactor
    matrix in the receiver, and its product with the original matrix is the
    zero matrix on both sides. *)
Theorem inverse_singular (m : Matrix4) :
  inverseDet m = 0 ->
  Mat4.inverse m = Mat4.cofactors m /\
  Mat4.matrix4Multiply [m; Mat4.inverse m] = Ok zeroMatrix /\
  Mat4.matrix4Multiply [Mat4.inverse m; m] = Ok zeroMatrix.
Proof.
  intros Hd.
  rewrite (inverseDet_singular m Hd).
  unfold Mat4.matrix4Multiply, Js.reduce; simpl.
  rewrite cofactors_right, cofactors_left, Hd.
  repeat split; f_equal; apply matrix_ext; simpl; ring.
Qed.

Lemma inverse_singular_witness :
  inverseDet sampleSingular = 0 /\
  Mat4.inverse sampleSingular = Mat4.cofactors sampleSingular /\
  Mat4.matrix4Multiply [sampleSingular; Mat4.inverse sampleSingular]
  = Ok zeroMatrix /\
  Mat4.matrix4Multiply [Mat4.inverse sampleSingular; sampleSingular]
  = Ok zeroMatrix.
Proof.
  assert (Hd : inverseDet sampleSingular = 0)
    by (unfold inverseDet, sampleSingular; simpl; lra).
  split; [exact Hd | exact (inverse_singular sampleSingular Hd)].
Defined.

(** ** Quaternions and rotation matrices *)

(** A quaternion and its negation have the same matrix, under either
    constructor. *)
Theorem matrix_of_negated_quaternion (q : Quaternion) :
  Mat4.fromObjectToWorldQuaternion (Quat.negate q)
  = Mat4.fromObjectToWorldQuaternion q /\
  Mat4.fromWorldToObjectQuaternion (Quat.negate q)
  = Mat4.fromWorldToObjectQuaternion q.
Proof.
  destruct q; split; apply matrix_ext; simpl; ring.
Qed.

(** The world-to-object matrix of a quaternion is the transpose of its
    object-to-world matrix, and the object-to-world matrix of its
    conjugate. *)
Theorem fromWorldToObjectQuaternion_transpose (q : Quaternion) :
  Mat4.fromWorldToObjectQuaternion q
  = Mat4.transpose (Mat4.fromObjectToWorldQuaternion q) /\
  Mat4.fromWorldToObjectQuaternion q
  = Mat4.fromObjectToWorldQuaternion (Quat.getConjugate q).
Proof.
  destruct q; split; apply matrix_ext; simpl; ring.
Qed.

(** The matrix of a unit quaternion is a pure rotation, under either
    constructor, and the two matrices are inverse to each other. *)
Theorem matrix_of_unit_quaternion (q : Quaternion) :
  unitQuaternion q ->
  pureRotation (Mat4.fromObjectToWorldQuaternion q) /\
  pureRotation (Mat4.fromWorldToObjectQuaternion q) /\
  Mat4.matrix4Multiply [Mat4.fromObjectToWorldQuaternion q;
                        Mat4.fromWorldToObjectQuaternion q]
  = Ok identityMatrix.
Proof.
  destruct q as [w x y z]; unfold unitQuaternion; simpl; intros Hu.
  unfold pureRotation, orthonormalBlock, Mat4.matrix4Multiply, Js.reduce;
    simpl.
  repeat split; try reflexivity; try nsatz.
  f_equal; apply matrix_ext; simpl; nsatz.
Qed.

Lemma sampleUnit_unit : unitQuaternion sampleUnit.
Proof.
  unfold unitQuaternion, sampleUnit; simpl; lra.
Qed.

Lemma matrix_of_unit_quaternion_witness :
  unitQuaternion sampleUnit /\
  pureRotation (Mat4.fromObjectToWorldQuaternion sampleUnit) /\
  pureRotation (Mat4.fromWorldToObjectQuaternion sampleUnit) /\
  Mat4.matrix4Multiply [Mat4.fromObjectToWorldQuaternion sampleUnit;
                        Mat4.fromWorldToObjectQuaternion sampleUnit]
  = Ok identityMatrix.
Proof.
  split; [exact sampleUnit_unit|].
  exact (matrix_of_unit_quaternion sampleUnit sampleUnit_unit).
Defined.

(** For unit quaternions the matrix of a product is the product of the
    matrices: in the same order for the world-to-object constructor, in the
    opposite order for the object-to-world one. *)
Theorem matrix_of_crossProduct (a b : Quaternion) :
  unitQuaternion a -> unitQuaternion b ->
  andThen (Quat.crossProduct [a; b])
          (fun p => Ok (Mat4.fromWorldToObjectQuaternion p))
  = Mat4.matrix4Multiply [Mat4.fromWorldToObjectQuaternion a;
                          Mat4.fromWorldToObjectQuaternion b] /\
  andThen (Quat.crossProduct [a; b])
          (fun p => Ok (Mat4.fromObjectToWorldQuaternion p))
  = Mat4.matrix4Multiply [Mat4.fromObjectToWorldQuaternion b;
                          Mat4.fromObjectToWorldQuaternion a].
Proof.
  destruct a as [w x y z], b as [w' x' y' z'].
  unfold unitQuaternion; simpl; intros Ha Hb.
  unfold Quat.crossProduct, Mat4.matrix4Multiply, Js.reduce; simpl.
  split; f_equal; apply matrix_ext; simpl; nsatz.
Qed.

Lemma matrix_of_crossProduct_witness :
  unitQuaternion sampleUnit /\
  unitQuaternion (mkQuaternion 0 1 0 0) /\
  andThen (Quat.crossProduct [sampleUnit; mkQuaternion 0 1 0 0])
          (fun p => Ok (Mat4.fromWorldToObjectQuaternion p))
  = Mat4.matrix4Multiply
      [Mat4.fromWorldToObjectQuaternion sampleUnit;
       Mat4.fromWorldToObjectQuaternion (mkQuaternion 0 1 0 0)] /\
  andThen (Quat.crossProduct [sampleUnit; mkQuaternion 0 1 0 0])
          (fun p => Ok (Mat4.fromObjectToWorldQuaternion p))
  = Mat4.matrix4Multiply
      [Mat4.fromObjectToWorldQuaternion (mkQuaternion 0 1 0 0);
       Mat4.fromObjectToWorldQuaternion sampleUnit].
Proof.
  assert (Hb : unitQuaternion (mkQuaternion 0 1 0 0))
    by (unfold unitQuaternion; simpl; lra).
  split; [exact sampleUnit_unit | split; [exact Hb|]].
  exact (matrix_of_crossProduct sampleUnit (mkQuaternion 0 1 0 0)
           sampleUnit_unit Hb).
Defined.

(** ** Euler angles *)

Lemma sin_double_half (t : R) : sin t = 2 * sin (t / 2) * cos (t / 2).
Proof.
  rewrite <- sin_2a. f_equal. field.
Qed.

Lemma cos_double_half (t : R) :
  cos t = cos (t / 2) * cos (t / 2) - sin (t / 2) * sin (t / 2).
Proof.
  rewrite <- cos_2a. f_equal. field.
Qed.

(** The two derivations from Euler angles agree: the quaternion built from
    the angles is a unit quaternion, and its object-to-world matrix is the
    matrix [fromEulerAngle] builds from the same angles. *)
Theorem fromEulerAngle_agrees_with_quaternion (orientation : EulerAngles.t) :
  unitQuaternion (Quat.setObjectToWorldFromEulerAngles orientation) /\
  unitQuaternion (Quat.setWorldToObjectFromEulerAngles orientation) /\
  Mat4.fromEulerAngle orientation
  = Mat4.fromObjectToWorldQuaternion
      (Quat.setObjectToWorldFromEulerAngles orientation) /\
  Mat4.fromEulerAngle orientation
  = Mat4.fromWorldToObjectQuaternion
      (Quat.setWorldToObjectFromEulerAngles orientation).
Proof.
  destruct orientation as [h p b].
  pose proof (sin_cos_sqr (h / 2)) as Hh.
  pose proof (sin_cos_sqr (p / 2)) as Hp.
  pose proof (sin_cos_sqr (b / 2)) as Hb.
  unfold unitQuaternion, Mat4.fromEulerAngle,
    Quat.setWorldToObjectFromEulerAngles,
    Quat.setObjectToWorldFromEulerAngles; simpl.
  rewrite (sin_double_half h), (sin_double_half p), (sin_double_half b),
          (cos_double_half h), (cos_double_half p), (cos_double_half b).
  generalize dependent (sin (h / 2)). generalize dependent (cos (h / 2)).
  generalize dependent (sin (p / 2)). generalize dependent (cos (p / 2)).
  generalize dependent (sin (b / 2)). generalize dependent (cos (b / 2)).
  intros cb sb Hb cp sp Hp ch sh Hh.
  repeat split; try nsatz; apply matrix_ext; simpl; nsatz.
Qed.

(** The matrix [fromEulerAngle] builds is a pure rotation. *)
Theorem fromEulerAngle_pureRotation (orientation : EulerAngles.t) :
  pureRotation (Mat4.fromEulerAngle orientation).
Proof.
  destruct orientation as [h p b].
  pose proof (sin_cos_sqr h) as Hh.
  pose proof (sin_cos_sqr p) as Hp.
  pose proof (sin_cos_sqr b) as Hb.
  unfold pureRotation, orthonormalBlock, Mat4.fromEulerAngle; simpl.
  repeat split; try reflexivity; nsatz.
Qed.

(** ** Elementary transforms *)

Lemma rotateXYZMatrix_basis (theta : R) :
  Mat4.rotateXYZMatrix "x" theta = Mat4.rotateMatrix (Vector3.mk 1 0 0) theta /\
  Mat4.rotateXYZMatrix "X" theta = Mat4.rotateMatrix (Vector3.mk 1 0 0) theta /\
  Mat4.rotateXYZMatrix "y" theta = Mat4.rotateMatrix (Vector3.mk 0 1 0) theta /\
  Mat4.rotateXYZMatrix "Y" theta = Mat4.rotateMatrix (Vector3.mk 0 1 0) theta /\
  Mat4.rotateXYZMatrix "z" theta = Mat4.rotateMatrix (Vector3.mk 0 0 1) theta /\
  Mat4.rotateXYZMatrix "Z" theta = Mat4.rotateMatrix (Vector3.mk 0 0 1) theta.
Proof.
  repeat split; apply matrix_ext; simpl; ring.
Qed.

Lemma setRotateFromVector3_passes (axis : Vector3.t) (theta : R)
    (this : Matrix4) :
  unitVector axis ->
  Mat4.setRotateFromVector3 axis theta this
  = Ok (Mat4.multiplyStep this (Mat4.rotateMatrix axis theta)).
Proof.
  intros Hu. unfold Mat4.setRotateFromVector3.
  destruct (Rgt_dec (Rabs (Vector3.getNorm axis - 1)) 0.01) as [H | _].
  - now apply unit_axis_passes in Hu.
  - apply matrix4Multiply__single.
Qed.

(** Rotating about a coordinate axis by name is rotating about the matching
    basis vector, for both spellings of each name. *)
Theorem setRotateFromXYZAxis_as_vector (theta : R) (this : Matrix4) :
  Mat4.setRotateFromXYZAxis "x" theta this
  = Mat4.setRotateFromVector3 (Vector3.mk 1 0 0) theta this /\
  Mat4.setRotateFromXYZAxis "X" theta this
  = Mat4.setRotateFromVector3 (Vector3.mk 1 0 0) theta this /\
  Mat4.setRotateFromXYZAxis "y" theta this
  = Mat4.setRotateFromVector3 (Vector3.mk 0 1 0) theta this /\
  Mat4.setRotateFromXYZAxis "Y" theta this
  = Mat4.setRotateFromVector3 (Vector3.mk 0 1 0) theta this /\
  Mat4.setRotateFromXYZAxis "z" theta this
  = Mat4.setRotateFromVector3 (Vector3.mk 0 0 1) theta this /\
  Mat4.setRotateFromXYZAxis "Z" theta this
  = Mat4.setRotateFromVector3 (Vector3.mk 0 0 1) theta this.
Proof.
  destruct (rotateXYZMatrix_basis theta) as (Hx & HX & Hy & HY & Hz & HZ).
  unfold Mat4.setRotateFromXYZAxis.
  rewrite !setRotateFromVector3_passes by (unfold unitVector; simpl; ring).
  rewrite !matrix4Multiply__single, Hx, HX, Hy, HY, Hz, HZ.
  repeat split; reflexivity.
Qed.

(** The rotation matrix about a unit axis is the world-to-object matrix of
    the rotation quaternion about the same axis and angle. *)
Theorem setRotateFromVector3_as_quaternion (axis : Vector3.t) (theta : R)
    (q0 : Quaternion) (this : Matrix4) :
  unitVector axis ->
  andThen (Quat.setToRotateAboutAxis axis theta q0)
          (fun q => Mat4.matrix4Multiply_
                      [Mat4.fromWorldToObjectQuaternion q] this)
  = Mat4.setRotateFromVector3 axis theta this.
Proof.
  intros Hu.
  rewrite setRotateFromVector3_passes by exact Hu.
  rewrite setToRotateAboutAxis_passes
    by (rewrite getNorm_unitVector by exact Hu; lra).
  simpl. rewrite matrix4Multiply__single. do 2 f_equal.
  destruct axis as [nx ny nz]; unfold unitVector in Hu; simpl in Hu.
  pose proof (sin_cos_sqr (theta / 2)) as Hsc.
  apply matrix_ext; simpl;
    rewrite ?(sin_double_half theta), ?(cos_double_half theta);
    generalize dependent (sin (theta / 2));
    generalize dependent (cos (theta / 2)); intros c s Hsc; nsatz.
Qed.

Lemma setRotateFromVector3_as_quaternion_witness :
  unitVector (Vector3.mk 0 0 1) /\
  andThen (Quat.setToRotateAboutAxis (Vector3.mk 0 0 1) 1 sampleUnit)
          (fun q => Mat4.matrix4Multiply_
                      [Mat4.fromWorldToObjectQuaternion q] sampleAffine)
  = Mat4.setRotateFromVector3 (Vector3.mk 0 0 1) 1 sampleAffine.
Proof.
  assert (Hu : unitVector (Vector3.mk 0 0 1))
    by (unfold unitVector; simpl; lra).
  split; [exact Hu|].
  exact (setRotateFromVector3_as_quaternion _ 1 sampleUnit sampleAffine Hu).
Defined.

Lemma not_shearAxis (axis : string) :
  ~ In axis shearAxes ->
  ((axis =? "x") || (axis =? "X") = false)%string /\
  ((axis =? "y") || (axis =? "Y") = false)%string /\
  ((axis =? "z") || (axis =? "Z") = false)%string.
Proof.
  unfold shearAxes; simpl. intros H.
  repeat split; apply orb_false_intro; apply String.eqb_neq;
    intros ->; apply H; tauto.
Qed.

(** An axis name outside the six the [switch]es know is not an error: the
    elementary matrix stays the identity and the receiver is left as it
    was, by [setRotateFromXYZAxis] and by [setShear]. *)
Theorem unknown_axis_no_op (axis : string) (theta s t : R) (this : Matrix4) :
  ~ In axis shearAxes ->
  Mat4.setRotateFromXYZAxis axis theta this = Ok this /\
  Mat4.setShear axis s t this = Ok this.
Proof.
  intros H. destruct (not_shearAxis axis H) as (Hx & Hy & Hz).
  unfold Mat4.setRotateFromXYZAxis, Mat4.setShear.
  rewrite !matrix4Multiply__single.
  unfold Mat4.rotateXYZMatrix, Mat4.rotateCase, Mat4.shearMatrix,
    Mat4.shearCase.
  rewrite Hx, Hy, Hz.
  split; f_equal; destruct this; apply matrix_ext; simpl; ring.
Qed.

Lemma unknown_axis_no_op_witness :
  ~ In "w"%string shearAxes /\
  Mat4.setRotateFromXYZAxis "w" 1 sampleAffine = Ok sampleAffine /\
  Mat4.setShear "w" 2 3 sampleAffine = Ok sampleAffine.
Proof.
  assert (H : ~ In "w"%string shearAxes).
  { unfold shearAxes; simpl. intros [H | [H | [H | [H | [H | [H | []]]]]]];
      discriminate H. }
  split; [exact H | exact (unknown_axis_no_op "w" 1 2 3 sampleAffine H)].
Defined.

Lemma rotateXYZMatrix_sum (axis : string) (theta1 theta2 : R) :
  In axis shearAxes ->
  Mat4.multiplyStep (Mat4.rotateXYZMatrix axis theta1)
                    (Mat4.rotateXYZMatrix axis theta2)
  = Mat4.rotateXYZMatrix axis (theta1 + theta2).
Proof.
  unfold shearAxes; simpl.
  intros [<- | [<- | [<- | [<- | [<- | [<- | []]]]]]];
    apply matrix_ext; simpl; rewrite ?sin_plus, ?cos_plus; ring.
Qed.

(** Two rotations about the same coordinate axis, one after the other, are
    one rotation by the sum of the angles. *)
Theorem setRotateFromXYZAxis_adds_angles (axis : string) (theta1 theta2 : R)
    (this : Matrix4) :
  In axis shearAxes ->
  andThen (Mat4.setRotateFromXYZAxis axis theta1 this)
          (Mat4.setRotateFromXYZAxis axis theta2)
  = Mat4.setRotateFromXYZAxis axis (theta1 + theta2) this.
Proof.
  intros H. unfold Mat4.setRotateFromXYZAxis.
  rewrite !matrix4Multiply__single. simpl.
  rewrite matrix4Multiply__single, multiplyStep_assoc.
  now rewrite (rotateXYZMatrix_sum axis theta1 theta2 H).
Qed.

Lemma setRotateFromXYZAxis_adds_angles_witness :
  In "y"%string shearAxes /\
  andThen (Mat4.setRotateFromXYZAxis "y" 1 sampleAffine)
          (Mat4.setRotateFromXYZAxis "y" 2)
  = Mat4.setRotateFromXYZAxis "y" (1 + 2) sampleAffine.
Proof.
  assert (H : In "y"%string shearAxes) by (unfold shearAxes; simpl; tauto).
  split; [exact H|].
  exact (setRotateFromXYZAxis_adds_angles "y" 1 2 sampleAffine H).
Defined.

(** [setReflection(n)] does exactly what [setScaleFromAxis(n, -1)] does,
    the exception for a non-unit axis included. *)
Theorem setReflection_as_scale (n : Vector3.t) (this : Matrix4) :
  Mat4.setReflection n this = Mat4.setScaleFromAxis n (-1) this.
Proof.
  unfold Mat4.setReflection, Mat4.setScaleFromAxis.
  destruct (Rgt_dec (Rabs (Vector3.getNorm n - 1)) 0.01); [reflexivity|].
  rewrite !matrix4Multiply__single. do 2 f_equal.
  destruct n; apply matrix_ext; simpl; ring.
Qed.

(** Reflecting twice about the same unit normal brings the receiver back. *)
Theorem setReflection_twice (n : Vector3.t) (this : Matrix4) :
  unitVector n ->
  andThen (Mat4.setReflection n this) (Mat4.setReflection n) = Ok this.
Proof.
  intros Hu. pose proof (unit_axis_passes n Hu) as Hg.
  unfold Mat4.setReflection.
  destruct (Rgt_dec (Rabs (Vector3.getNorm n - 1)) 0.01) as [H | _];
    [contradiction|].
  rewrite matrix4Multiply__single. simpl.
  destruct (Rgt_dec (Rabs (Vector3.getNorm n - 1)) 0.01) as [H | _];
    [contradiction|].
  rewrite matrix4Multiply__single, multiplyStep_assoc. f_equal.
  assert (Hi : Mat4.multiplyStep (Mat4.reflectionMatrix n)
                                 (Mat4.reflectionMatrix n) = Mat4.new).
  { destruct n as [nx ny nz]; unfold unitVector in Hu; simpl in Hu.
    apply matrix_ext; simpl; nsatz. }
  rewrite Hi. apply multiplyStep_new_r.
Qed.

Lemma setReflection_twice_witness :
  unitVector (Vector3.mk 0 1 0) /\
  andThen (Mat4.setReflection (Vector3.mk 0 1 0) sampleAffine)
          (Mat4.setReflection (Vector3.mk 0 1 0))
  = Ok sampleAffine.
Proof.
  assert (Hu : unitVector (Vector3.mk 0 1 0))
    by (unfold unitVector; simpl; lra).
  split; [exact Hu | exact (setReflection_twice _ sampleAffine Hu)].
Defined.

(** Scaling along the [x] axis by [k] through [setScaleFromAxis] is
    [setScale] with [(k, 1, 1)], and two [setScale] calls are one with the
    factors multiplied. *)
Theorem setScale_composes (u v : Vector3.t) (k : R) (this : Matrix4) :
  Mat4.setScaleFromAxis (Vector3.mk 1 0 0) k this
  = Mat4.setScale (Vector3.mk k 1 1) this /\
  andThen (Mat4.setScale u this) (Mat4.setScale v)
  = Mat4.setScale (Vector3.mk (Vector3.x u * Vector3.x v)
                              (Vector3.y u * Vector3.y v)
                              (Vector3.z u * Vector3.z v)) this.
Proof.
  split.
  - unfold Mat4.setScaleFromAxis, Mat4.setScale.
    destruct (Rgt_dec (Rabs (Vector3.getNorm (Vector3.mk 1 0 0) - 1)) 0.01)
      as [H | _].
    + exfalso; revert H. apply unit_axis_passes.
      unfold unitVector; simpl; ring.
    + rewrite !matrix4Multiply__single. do 2 f_equal.
      apply matrix_ext; simpl; ring.
  - unfold Mat4.setScale. rewrite !matrix4Multiply__single. simpl.
    rewrite matrix4Multiply__single, multiplyStep_assoc. do 2 f_equal.
    destruct u, v; apply matrix_ext; simpl; ring.
Qed.

(** Two translations compose to the translation by the sum. *)
Theorem setTranslation_composes (u v : Vector3.t) (this : Matrix4) :
  andThen (Mat4.setTranslation u this) (Mat4.setTranslation v)
  = Mat4.setTranslation (Vector3.mk (Vector3.x u + Vector3.x v)
                                    (Vector3.y u + Vector3.y v)
                                    (Vector3.z u + Vector3.z v)) this.
Proof.
  unfold Mat4.setTranslation. rewrite !matrix4Multiply__single. simpl.
  rewrite matrix4Multiply__single, multiplyStep_assoc. do 2 f_equal.
  destruct u, v; apply matrix_ext; simpl; ring.
Qed.

(** On a receiver whose fourth column is [(0, 0, 0, 1)], [setTranslation]
    adds the vector to the translation row and changes nothing else. *)
Theorem setTranslation_affine (v : Vector3.t) (this : Matrix4) :
  affine this ->
  Mat4.setTranslation v this
  = Ok (mkMatrix4 (m11 this) (m12 this) (m13 this) (m14 this)
                  (m21 this) (m22 this) (m23 this) (m24 this)
                  (m31 this) (m32 this) (m33 this) (m34 this)
                  (tx this + Vector3.x v) (ty this + Vector3.y v)
                  (tz this + Vector3.z v) (tw this)).
Proof.
  intros (H14 & H24 & H34 & Hw).
  unfold Mat4.setTranslation. rewrite matrix4Multiply__single. f_equal.
  destruct this, v; simpl in *; subst.
  apply matrix_ext; simpl; ring.
Qed.

Lemma sampleAffine_affine : affine sampleAffine.
Proof.
  unfold affine, sampleAffine; simpl; repeat split; reflexivity.
Qed.

Lemma setTranslation_affine_witness :
  affine sampleAffine /\
  Mat4.setTranslation (Vector3.mk 1 2 3) sampleAffine
  = Ok (mkMatrix4 (m11 sampleAffine) (m12 sampleAffine) (m13 sampleAffine)
                  (m14 sampleAffine)
                  (m21 sampleAffine) (m22 sampleAffine) (m23 sampleAffine)
                  (m24 sampleAffine)
                  (m31 sampleAffine) (m32 sampleAffine) (m33 sampleAffine)
                  (m34 sampleAffine)
                  (tx sampleAffine + Vector3.x (Vector3.mk 1 2 3))
                  (ty sampleAffine + Vector3.y (Vector3.mk 1 2 3))
                  (tz sampleAffine + Vector3.z (Vector3.mk 1 2 3))
                  (tw sampleAffine)).
Proof.
  split; [exact sampleAffine_affine|].
  exact (setTranslation_affine (Vector3.mk 1 2 3) sampleAffine
           sampleAffine_affine).
Defined.

(** A receiver that is not affine shows the difference: the translation is
    multiplied in, so the fourth column leaks into the block. *)
Lemma setTranslation_not_affine :
  Mat4.setTranslation (Vector3.mk 1 0 0)
    (mkMatrix4 1 0 0 1
               0 1 0 0
               0 0 1 0
               0 0 0 1)
  = Ok (mkMatrix4 2 0 0 1
                  0 1 0 0
                  0 0 1 0
                  1 0 0 1).
Proof.
  unfold Mat4.setTranslation. rewrite matrix4Multiply__single. f_equal.
  apply matrix_ext; simpl; ring.
Qed.

(** ** Frames *)

(** With a pure rotation as orientation, the parent-to-local matrix built
    from the transposed orientation is the inverse of the local-to-parent
    matrix built from the orientation, whatever the receivers held before. *)
Theorem parentToLocal_inverts_localToParent (pos : Vector3.t)
    (orientation this1 this2 : Matrix4) :
  pureRotation orientation ->
  let toParent :=
    Mat4.setLocalToParentFromRotationMatrix pos orientation this1 in
  let toLocal :=
    Mat4.setParentToLocalFromRotationMatrix pos (Mat4.transpose orientation)
                                            this2 in
  Mat4.matrix4Multiply [toParent; toLocal] = Ok identityMatrix /\
  Mat4.matrix4Multiply [toLocal; toParent] = Ok identityMatrix.
Proof.
  intros (Ho & H14 & H24 & H34 & Hx & Hy & Hz & Hw).
  destruct orientation
    as [a11 a12 a13 a14 a21 a22 a23 a24 a31 a32 a33 a34 x y z w].
  destruct pos as [px py pz].
  unfold orthonormalBlock in Ho; simpl in *.
  destruct Ho as (H1 & H2 & H3 & H4 & H5 & H6). subst.
  unfold Mat4.matrix4Multiply, Js.reduce; simpl.
  split; f_equal; apply matrix_ext; simpl; nsatz.
Qed.

Lemma parentToLocal_inverts_localToParent_witness :
  pureRotation quarterTurnZ /\
  Mat4.matrix4Multiply
    [Mat4.setLocalToParentFromRotationMatrix (Vector3.mk 1 2 3) quarterTurnZ
       sampleAffine;
     Mat4.setParentToLocalFromRotationMatrix (Vector3.mk 1 2 3)
       (Mat4.transpose quarterTurnZ) sampleSingular]
  = Ok identityMatrix /\
  Mat4.matrix4Multiply
    [Mat4.setParentToLocalFromRotationMatrix (Vector3.mk 1 2 3)
       (Mat4.transpose quarterTurnZ) sampleSingular;
     Mat4.setLocalToParentFromRotationMatrix (Vector3.mk 1 2 3) quarterTurnZ
       sampleAffine]
  = Ok identityMatrix.
Proof.
  split; [exact quarterTurnZ_pureRotation|].
  exact (parentToLocal_inverts_localToParent (Vector3.mk 1 2 3) quarterTurnZ
           sampleAffine sampleSingular quarterTurnZ_pureRotation).
Defined.

(** ** Projections

    A point [p] is carried through a matrix as the translation row of
    [setTranslation(p)] on the identity followed by the matrix: the row of
    the product is [(p, 1)] times the matrix. *)

(** [setOrtho] sends the corner [(left, bottom, -near)] of the view box to
    [(-1, -1, -1)] and the corner [(right, top, -far)] to [(1, 1, 1)], both
    with [w = 1]. *)
Theorem setOrtho_maps_box (left right bottom top near far : R) :
  right <> left -> top <> bottom -> far <> near ->
  (exists m : Matrix4,
      andThen (Mat4.setTranslation (Vector3.mk left bottom (- near)) Mat4.new)
              (Mat4.setOrtho left right bottom top near far) = Ok m /\
      tx m = -1 /\ ty m = -1 /\ tz m = -1 /\ tw m = 1) /\
  (exists m : Matrix4,
      andThen (Mat4.setTranslation (Vector3.mk right top (- far)) Mat4.new)
              (Mat4.setOrtho left right bottom top near far) = Ok m /\
      tx m = 1 /\ ty m = 1 /\ tz m = 1 /\ tw m = 1).
Proof.
  intros Hx Hy Hz.
  unfold Mat4.setTranslation, Mat4.setOrtho.
  rewrite !matrix4Multiply__single; simpl.
  rewrite !matrix4Multiply__single.
  split; eexists; (split; [reflexivity|]); simpl;
    repeat split; field; lra.
Qed.

Lemma setOrtho_maps_box_witness :
  2 <> 0 /\ 2 <> 0 /\ 3 <> 1 /\
  (exists m : Matrix4,
      andThen (Mat4.setTranslation (Vector3.mk 0 0 (- 1)) Mat4.new)
              (Mat4.setOrtho 0 2 0 2 1 3) = Ok m /\
      tx m = -1 /\ ty m = -1 /\ tz m = -1 /\ tw m = 1) /\
  (exists m : Matrix4,
      andThen (Mat4.setTranslation (Vector3.mk 2 2 (- 3)) Mat4.new)
              (Mat4.setOrtho 0 2 0 2 1 3) = Ok m /\
      tx m = 1 /\ ty m = 1 /\ tz m = 1 /\ tw m = 1).
Proof.
  assert (H1 : 2 <> 0) by lra.
  assert (H2 : 3 <> 1) by lra.
  split; [exact H1 | split; [exact H1 | split; [exact H2|]]].
  exact (setOrtho_maps_box 0 2 0 2 1 3 H1 H1 H2).
Defined.



(** ** The iterator *)

Lemma nthCall_general (k i : nat) (vs : list R) :
  nthCall k (Mat4.mkIterator vs i)
  = Mat4.mkIteratorResult (i + k =? List.length vs)%nat (nth_error vs (i + k)).
Proof.
  revert i. induction k as [|k IH]; intros i; simpl.
  - now rewrite Nat.add_0_r.
  - rewrite IH. now rewrite <- plus_n_Sm.
Qed.

(** Call number [k] of [next] (from 0) yields field number [k] while [k] is
    below 16 and reports [done] at [k = 16]; every call after that reports
    [done = false] again, with an undefined value. *)
Theorem iterator_calls (m : Matrix4) (k : nat) :
  nthCall k (Mat4.iterator m)
  = Mat4.mkIteratorResult (k =? 16)%nat (nth_error (fields m) k) /\
  nthCall 16 (Mat4.iterator m) = Mat4.mkIteratorResult true None /\
  nthCall (17 + k) (Mat4.iterator m) = Mat4.mkIteratorResult false None.
Proof.
  unfold Mat4.iterator. rewrite !nthCall_general.
  split; [reflexivity | split; reflexivity].
Qed.

(** Spreading a matrix, [[...m]], stops at the first [done] and gives its
    sixteen fields in row order, given room for the seventeen calls it
    makes; handing them back to the constructor rebuilds the matrix. *)
Theorem spread_round_trip (m : Matrix4) (fuel : nat) :
  (17 <= fuel)%nat ->
  Mat4.spread fuel (Mat4.iterator m) = Some (map Some (fields m)) /\
  Mat4.construct (map Some (fields m)) = m.
Proof.
  intros Hf. split.
  - replace fuel with (17 + (fuel - 17))%nat by lia.
    generalize (fuel - 17)%nat as k. intros k.
    reflexivity.
  - destruct m; reflexivity.
Qed.

Lemma spread_round_trip_witness :
  (17 <= 17)%nat /\
  Mat4.spread 17 (Mat4.iterator sampleAffine)
  = Some (map Some (fields sampleAffine)) /\
  Mat4.construct (map Some (fields sampleAffine)) = sampleAffine.
Proof.
  assert (H : (17 <= 17)%nat) by lia.
  split; [exact H | exact (spread_round_trip sampleAffine 17 H)].
Defined.

(** With fewer than seventeen calls allowed the spread does not finish. *)
Lemma spread_needs_seventeen (m : Matrix4) :
  Mat4.spread 16 (Mat4.iterator m) = None.
Proof.
  reflexivity.
Qed.

(** ** Round trip through the matrix, first branch *)

Lemma fromRotationMatrix_branch0_inverse_witness :
  qw sampleUnit * qw sampleUnit + qx sampleUnit * qx sampleUnit
  + qy sampleUnit * qy sampleUnit + qz sampleUnit * qz sampleUnit = 1 /\
  0 < qw sampleUnit /\
  qx sampleUnit * qx sampleUnit <= qw sampleUnit * qw sampleUnit /\
  qy sampleUnit * qy sampleUnit <= qw sampleUnit * qw sampleUnit /\
  qz sampleUnit * qz sampleUnit <= qw sampleUnit * qw sampleUnit /\
  Quat.fromRotationMatrix (Mat4.fromWorldToObjectQuaternion sampleUnit)
  = sampleUnit.
Proof.
  assert (Hu : qw sampleUnit * qw sampleUnit + qx sampleUnit * qx sampleUnit
               + qy sampleUnit * qy sampleUnit + qz sampleUnit * qz sampleUnit
               = 1) by (simpl; lra).
  assert (Hw : 0 < qw sampleUnit) by (simpl; lra).
  assert (Hx : qx sampleUnit * qx sampleUnit <= qw sampleUnit * qw sampleUnit)
    by (simpl; lra).
  assert (Hy : qy sampleUnit * qy sampleUnit <= qw sampleUnit * qw sampleUnit)
    by (simpl; lra).
  assert (Hz : qz sampleUnit * qz sampleUnit <= qw sampleUnit * qw sampleUnit)
    by (simpl; lra).
  repeat (split; [assumption|]).
  exact (fromRotationMatrix_branch0_inverse sampleUnit Hu Hw Hx Hy Hz).
Defined.
